(** * IVIM model fitting (dipy/reconst/ivim.py)

    A shallow embedding of [dipy.reconst.ivim]: the signal model
    [ivim_prediction], the residuals, the [IvimModel] constructor and its
    per-voxel [fit], and the [IvimFit] result container with its indexing.

    Modelling conventions.
    - Python floats are idealised as real numbers ([R]); [np.inf], which only
      occurs in bounds arrays, lives in the extended type [xreal].
    - A Python call that may raise returns a [result]: [Ok v] or [Raise e].
    - One-dimensional numpy arrays are lists; elementwise arithmetic between
      two of them follows numpy's broadcasting rule ([broadcast2]).
    - N-dimensional arrays ([ndarray]) are a shape and an item function;
      basic indexing with integers and slices is [NdArray.getitem].
    - [np.polyfit], [scipy.optimize.least_squares] and
      [scipy.optimize.leastsq] are library code: they are the fields of the
      class [Externals], and what the development relies on about them is
      stated as hypotheses where it is used. *)

From Stdlib Require Import String ZArith Bool Reals Lra Lia List.
Import ListNotations.

Set Implicit Arguments.

(** ** Python exceptions and the error monad *)

Inductive exn : Type :=
| ValueError (msg : string)
| IndexError (msg : string)
| TypeError (msg : string)
| KeyError (key : string).

Inductive result (A : Type) : Type :=
| Ok (a : A)
| Raise (e : exn).

Arguments Ok {A} a.
Arguments Raise {A} e.

Definition bind {A B : Type} (c : result A) (k : A -> result B) : result B :=
  match c with
  | Ok a => k a
  | Raise e => Raise e
  end.

Notation "x <- c ;; k" := (bind c (fun x => k))
  (at level 61, c at next level, right associativity).
Notation "' p <- c ;; k" := (bind c (fun x => let p := x in k))
  (at level 61, p pattern, c at next level, right associativity).

Definition raises {A : Type} (c : result A) : Prop :=
  exists e, c = Raise e.

(** ** Extended reals: floats together with [np.inf] *)

Inductive xreal : Type :=
| Finite (r : R)
| PosInf
| NegInf.

Definition Rltb (x y : R) : bool := if Rlt_dec x y then true else false.
Definition Rleb (x y : R) : bool := if Rle_dec x y then true else false.
Definition Reqb (x y : R) : bool := if Req_dec_T x y then true else false.

Definition xltb (x y : xreal) : bool :=
  match x, y with
  | Finite a, Finite b => Rltb a b
  | Finite _, PosInf => true
  | NegInf, Finite _ => true
  | NegInf, PosInf => true
  | _, _ => false
  end.

Definition xle (x y : xreal) : Prop :=
  match x, y with
  | Finite a, Finite b => (a <= b)%R
  | _, PosInf => True
  | NegInf, _ => True
  | _, _ => False
  end.

Definition xleb (x y : xreal) : bool :=
  match x, y with
  | Finite a, Finite b => Rleb a b
  | _, PosInf => true
  | NegInf, _ => true
  | _, _ => false
  end.

(** ** One-dimensional numpy arrays *)

Module Np.

(** Elementwise binary operation under numpy's broadcasting rule for two
    one-dimensional operands: equal lengths pair up, a length-one operand is
    stretched, anything else raises. *)
Definition broadcast2 {A B C : Type} (f : A -> B -> C)
    (xs : list A) (ys : list B) : result (list C) :=
  if Nat.eqb (length xs) (length ys) then
    Ok (map (fun p => f (fst p) (snd p)) (combine xs ys))
  else
    match xs, ys with
    | [x], _ => Ok (map (f x) ys)
    | _, [y] => Ok (map (fun x => f x y) xs)
    | _, _ => Raise (ValueError "operands could not be broadcast together")
    end.

(** [np.where(cond, x, y)] on one-dimensional operands. *)
Definition where_ {A : Type} (cond : list bool) (xs ys : list A)
    : result (list A) :=
  cx <- broadcast2 pair cond xs ;;
  broadcast2 (fun (p : bool * A) y => if fst p then snd p else y) cx ys.

(** [a[mask]] with a boolean mask: the mask must be as long as the array. *)
Fixpoint compress {A : Type} (mask : list bool) (xs : list A) : list A :=
  match mask, xs with
  | m :: mask', x :: xs' =>
      if m then x :: compress mask' xs' else compress mask' xs'
  | _, _ => []
  end.

Definition mask_select {A : Type} (xs : list A) (mask : list bool)
    : result (list A) :=
  if Nat.eqb (length mask) (length xs) then Ok (compress mask xs)
  else Raise (IndexError "boolean index did not match indexed array").

(** [np.any] *)
Definition any (mask : list bool) : bool := existsb (fun b => b) mask.

End Np.

(** ** Gradient tables *)

Record GradientTable : Type := {
  bvals : list R;
  bvecs : list (R * R * R);
  b0s_mask : list bool
}.

(** Modelled from the spec: [dipy.core.gradients.gradient_table] is not part
    of the sources at hand.  The spec's gradient-table interface offers
    "construction from a subset of b-values/directions" and "a boolean mask
    identifying b0 acquisitions"; the b-values that are exactly 0 are the
    flagged ones.  The transposition of the directions in the source
    ([bvecs.T]) is undone by the constructor and is not modelled. *)
Definition gradient_table (bs : list R) (vs : list (R * R * R))
    : result GradientTable :=
  Ok {| bvals := bs; bvecs := vs; b0s_mask := map (fun b => Reqb b 0) bs |}.

(** ** The signal model and the residuals *)

Section SignalModel.
Open Scope R_scope.

(** [ivim_prediction(params, gtab, S0=1.)]; the keyword [S0] is never read. *)
Definition ivim_prediction (params : list R) (gtab : GradientTable)
    : result (list R) :=
  match params with
  | [S0; f; D_star; D] =>
      let b := bvals gtab in
      Ok (map (fun b => S0 * (f * exp (- b * D_star) + (1 - f) * exp (- b * D))) b)
  | _ => Raise (ValueError "not enough values to unpack")
  end.

(** [_ivim_error(params, gtab, signal)] *)
Definition _ivim_error (params : list R) (gtab : GradientTable)
    (signal : list R) : result (list R) :=
  S <- ivim_prediction params gtab ;;
  Np.broadcast2 Rminus signal S.

(** [D_star_prediction(D_star, gtab, other_params)] *)
Definition D_star_prediction (D_star : R) (gtab : GradientTable)
    (other_params : list R) : result (list R) :=
  match other_params with
  | [S0; f; D] =>
      let b := bvals gtab in
      Ok (map (fun b => S0 * (f * exp (- b * D_star) + (1 - f) * exp (- b * D))) b)
  | _ => Raise (ValueError "not enough values to unpack")
  end.

(** [D_star_error(D_star, gtab, signal, other_params)] *)
Definition D_star_error (D_star : R) (gtab : GradientTable)
    (signal : list R) (other_params : list R) : result (list R) :=
  match other_params with
  | [S0; f; D] =>
      S <- D_star_prediction D_star gtab other_params ;;
      Np.broadcast2 Rminus signal S
  | _ => Raise (ValueError "not enough values to unpack")
  end.

End SignalModel.

(** ** N-dimensional arrays and basic indexing *)

Module NdArray.

(** An array is its shape together with the item stored at each multi-index
    (only multi-indices within the shape are meaningful). *)
Record ndarray : Type := {
  shape : list nat;
  item : list nat -> R
}.

Definition ndim (a : ndarray) : nat := length (shape a).

(** [np.array(l)] for a flat list of floats. *)
Definition array (l : list R) : ndarray :=
  {| shape := [length l];
     item := fun ix => match ix with [i] => nth i l 0%R | _ => 0%R end |}.

(** Two arrays agree when they have the same shape and the same items at
    every multi-index within it. *)
Definition in_shape (ix s : list nat) : Prop := Forall2 lt ix s.

Definition same_array (a b : ndarray) : Prop :=
  shape a = shape b /\
  forall ix, in_shape ix (shape a) -> item a ix = item b ix.

(** One entry of an index tuple: an integer or a [slice(start, stop, step)]
    ([None] fields are [None] here too). *)
Inductive index_item : Type :=
| Int (i : Z)
| Slice (start stop step : option Z).

(** [slice(None)] *)
Definition slice_None : index_item := Slice None None None.

(** What an index entry selects along an axis of length [d]: one position,
    or [len] positions [start, start + step, ...]. *)
Inductive selector : Type :=
| Pick (j : nat)
| Stride (start step : Z) (len : nat).

Open Scope Z_scope.

(** Clipping of an explicit slice bound, as [slice.indices] does it. *)
Definition adjust (v step len : Z) : Z :=
  if v <? 0 then
    let v' := v + len in
    if v' <? 0 then (if step <? 0 then -1 else 0) else v'
  else if v >=? len then (if step <? 0 then len - 1 else len)
  else v.

Definition slice_indices (start stop step : option Z) (len : Z)
    : result (Z * Z * nat) :=
  let step := match step with Some s => s | None => 1 end in
  if step =? 0 then Raise (ValueError "slice step cannot be zero")
  else
    let start := match start with
                 | Some v => adjust v step len
                 | None => if step <? 0 then len - 1 else 0
                 end in
    let stop := match stop with
                | Some v => adjust v step len
                | None => if step <? 0 then -1 else len
                end in
    let count :=
      if step <? 0 then
        (if stop <? start then (start - stop - 1) / (- step) + 1 else 0)
      else
        (if start <? stop then (stop - start - 1) / step + 1 else 0) in
    Ok (start, step, Z.to_nat count).

Definition select_axis (it : index_item) (d : nat) : result selector :=
  match it with
  | Int i =>
      if (- Z.of_nat d <=? i) && (i <? Z.of_nat d)
      then Ok (Pick (Z.to_nat (i mod Z.of_nat d)))
      else Raise (IndexError "index is out of bounds for axis")
  | Slice start stop step =>
      '(start, step, len) <- slice_indices start stop step (Z.of_nat d) ;;
      Ok (Stride start step len)
  end.

Close Scope Z_scope.

(** The selectors of an index tuple against a shape; the axes the tuple does
    not reach are taken whole. *)
Fixpoint select_axes (index : list index_item) (s : list nat)
    : result (list selector) :=
  match index, s with
  | [], _ => Ok (map (fun d => Stride 0 1 d) s)
  | _ :: _, [] => Raise (IndexError "too many indices for array")
  | it :: index', d :: s' =>
      sel <- select_axis it d ;;
      sels <- select_axes index' s' ;;
      Ok (sel :: sels)
  end.

Definition select (index : list index_item) (s : list nat)
    : result (list selector) :=
  if Nat.ltb (length s) (length index)
  then Raise (IndexError "too many indices for array")
  else select_axes index s.

Fixpoint out_shape (sels : list selector) : list nat :=
  match sels with
  | [] => []
  | Pick _ :: sels' => out_shape sels'
  | Stride _ _ len :: sels' => len :: out_shape sels'
  end.

(** The multi-index of the indexed array that a multi-index of the result
    comes from. *)
Fixpoint source (sels : list selector) (ix : list nat) : list nat :=
  match sels with
  | [] => []
  | Pick j :: sels' => j :: source sels' ix
  | Stride start step _ :: sels' =>
      match ix with
      | k :: ix' => Z.to_nat (start + Z.of_nat k * step) :: source sels' ix'
      | [] => Z.to_nat start :: source sels' []
      end
  end.

(** [a[index]] for a tuple of integers and slices. *)
Definition getitem (a : ndarray) (index : list index_item) : result ndarray :=
  sels <- select index (shape a) ;;
  Ok {| shape := out_shape sels;
        item := fun ix => item a (source sels ix) |}.

(** [a[..., k]] for a literal [k >= 0]. *)
Definition getitem_last (a : ndarray) (k : nat) : result ndarray :=
  match rev (shape a) with
  | [] => Raise (IndexError "too many indices for array")
  | d :: _ =>
      if Nat.ltb k d
      then Ok {| shape := removelast (shape a);
                 item := fun ix => item a (ix ++ [k]) |}
      else Raise (IndexError "index is out of bounds for axis")
  end.

End NdArray.

(** ** Library routines the model calls *)

Definition bounds_t : Type := (list xreal * list xreal)%type.

(** Keyword arguments of [scipy.optimize.least_squares]. *)
Record least_squares_kw : Type := {
  ls_ftol : R; ls_xtol : R; ls_gtol : R; ls_max_nfev : R
}.

(** Keyword arguments of [scipy.optimize.leastsq]. *)
Record leastsq_kw : Type := {
  lq_gtol : R; lq_xtol : R; lq_ftol : R; lq_epsfcn : R; lq_maxfev : R
}.

(** The residual handed to a solver: from a parameter vector to the error
    vector. *)
Definition residual : Type := list R -> result (list R).

Class Externals : Type := {
  (** [LooseVersion(scipy.version.short_version) < '0.17'] *)
  SCIPY_LESS_0_17 : bool;
  (** [np.polyfit(x, y, deg)]: coefficients, highest power first. *)
  polyfit : list R -> list R -> nat -> result (list R);
  (** [least_squares(fun, x0, bounds=..., ftol=..., ...)], returning [res.x]. *)
  least_squares :
    residual -> list xreal -> option bounds_t -> least_squares_kw ->
    result (list R);
  (** [leastsq(fun, x0, gtol=..., ...)], returning [res[0]]. *)
  leastsq : residual -> list xreal -> leastsq_kw -> result (list R)
}.

(** A Python [dict] with string keys, read with [d[key]]. *)
Definition dict : Type := list (string * R).

Fixpoint dict_getitem (d : dict) (key : string) : result R :=
  match d with
  | [] => Raise (KeyError key)
  | (k, v) :: d' => if String.eqb k key then Ok v else dict_getitem d' key
  end.

(** ** IvimFit: the result container *)

Module IvimFit.
Import NdArray.

Section WithModel.
Variable Model : Type.

Record t : Type := {
  model : Model;
  model_params : ndarray
}.

(** [IvimFit.__init__(self, model, model_params)] *)
Definition __init__ (model : Model) (model_params : ndarray) : t :=
  {| model := model; model_params := model_params |}.

(** What is written between the brackets of [fit[...]]: a tuple, or a single
    object that is not a tuple. *)
Inductive index : Type :=
| Single (it : index_item)
| Tuple (its : list index_item).

(** [IvimFit.__getitem__(self, index)] *)
Definition __getitem__ (self : t) (index : index) : result t :=
  let model_params := model_params self in
  let N := ndim model_params in
  index <- match index with
           | Single it => Ok [it]
           | Tuple its =>
               if Nat.leb (ndim model_params) (length its)
               then Raise (IndexError "IndexError: invalid index")
               else Ok its
           end ;;
  let index := index ++ repeat slice_None (N - length index) in
  params <- getitem model_params index ;;
  Ok (__init__ (model self) params).

Definition S0_predicted (self : t) : result ndarray :=
  getitem_last (model_params self) 0.

Definition perfusion_fraction (self : t) : result ndarray :=
  getitem_last (model_params self) 1.

Definition D_star (self : t) : result ndarray :=
  getitem_last (model_params self) 2.

Definition D (self : t) : result ndarray :=
  getitem_last (model_params self) 3.

(** [model_params.shape[:-1]] *)
Definition shape (self : t) : list nat :=
  removelast (NdArray.shape (model_params self)).

End WithModel.
End IvimFit.

(** ** IvimModel: configuration, staged initial guess and fit *)

Module IvimModel.
Import NdArray.

Record t : Type := {
  gtab : GradientTable;
  split_b : R;
  bounds : option bounds_t;
  tol : R;
  options : dict;
  method : string
}.

Definition set_bounds (self : t) (b : option bounds_t) : t :=
  {| gtab := gtab self; split_b := split_b self; bounds := b;
     tol := tol self; options := options self; method := method self |}.

Open Scope R_scope.

(** The defaults of [__init__]'s keyword arguments. *)
Definition default_split_b : R := 200.0.
Definition default_method : string := "two_stage".
Definition default_tol : R := 1e-10.
Definition default_options : dict :=
  [("gtol"%string, 1e-10); ("ftol"%string, 1e-10);
   ("eps"%string, 1e-10); ("maxiter"%string, 1000)].

(** The pair stored by [__init__] (lines 206-207). *)
Definition solver_bounds : bounds_t :=
  ([Finite 0; Finite 0; Finite 0; Finite 0],
   [PosInf; Finite 1; Finite 0.05; Finite 0.005]).

(** The fallback pair written out in [fit] (line 250). *)
Definition fallback_bounds : bounds_t :=
  ([Finite 0; Finite 0; Finite 0; Finite 0],
   [PosInf; Finite 1; Finite 0.01; Finite 0.001]).

Definition no_b0_message : string :=
  "No measured signal at bvalue == 0." ++
  "The IVIM model requires signal measured at 0 bvalue".

Definition no_bounds_message : string :=
  "Scipy versions less than 0.17 do not support " ++
  "bounds. Please update to Scipy 0.17 to use bounds".

Section WithExternals.
Context {E : Externals}.

(** [IvimModel.__init__(self, gtab, split_b, method, bounds, tol, options)];
    [ReconstModel.__init__] stores the gradient table. *)
Definition __init__ (gtab' : GradientTable) (split_b' : R) (method' : string)
    (bounds' : option bounds_t) (tol' : R) (options' : dict) : result t :=
  if negb (Np.any (b0s_mask gtab')) then
    Raise (ValueError no_b0_message)
  else
    let self := {| gtab := gtab'; split_b := split_b'; bounds := bounds';
                   tol := tol'; options := options'; method := method' |} in
    if SCIPY_LESS_0_17 && (match bounds self with Some _ => true | None => false end)
    then Raise (ValueError no_bounds_message)
    else Ok (set_bounds self (Some solver_bounds)).

(** [estimate_S0_prime_D(self, data)] *)
Definition estimate_S0_prime_D (self : t) (data : list R) : result (R * R) :=
  let ge_split := map (fun b => Rleb (split_b self) b) (bvals (gtab self)) in
  bvals_ge_split <- Np.mask_select (bvals (gtab self)) ge_split ;;
  bvecs_ge_split <- Np.mask_select (bvecs (gtab self)) ge_split ;;
  gtab_ge_split <- gradient_table bvals_ge_split bvecs_ge_split ;;
  data_ge_split <- Np.mask_select data ge_split ;;
  coeffs <- polyfit (bvals gtab_ge_split)
                    (map (fun s => - ln s) data_ge_split) 1 ;;
  match coeffs with
  | [D; neg_log_S0] =>
      let S0_prime := exp (- neg_log_S0) in
      Ok (S0_prime, D)
  | _ => Raise (ValueError "too many values to unpack")
  end.

(** [estimate_S0_D_star_prime(self, data)] *)
Definition estimate_S0_D_star_prime (self : t) (data : list R)
    : result (R * R) :=
  let lt_split := map (fun b => Rltb b (split_b self)) (bvals (gtab self)) in
  bvals_le_split <- Np.mask_select (bvals (gtab self)) lt_split ;;
  bvecs_le_split <- Np.mask_select (bvecs (gtab self)) lt_split ;;
  gtab_le_split <- gradient_table bvals_le_split bvecs_le_split ;;
  data_le_split <- Np.mask_select data lt_split ;;
  coeffs <- polyfit (bvals gtab_le_split)
                    (map (fun s => - ln s) data_le_split) 1 ;;
  match coeffs with
  | [D_star_prime; neg_log_S0] =>
      let S0 := exp (- neg_log_S0) in
      Ok (S0, D_star_prime)
  | _ => Raise (ValueError "too many values to unpack")
  end.

(** The residual of the scalar sub-fit: the solver passes a one-element
    vector, which the arithmetic of [D_star_prediction] treats as a scalar. *)
Definition D_star_residual (gtab : GradientTable) (data other_params : list R)
    : residual :=
  fun x =>
    match x with
    | [D_star] => D_star_error D_star gtab data other_params
    | _ => Raise (ValueError "operands could not be broadcast together")
    end.

(** [estimate_D_star(self, data, other_params)]; the statements after the two
    [return]s (lines 318-319) are unreachable. *)
Definition estimate_D_star (self : t) (data other_params : list R)
    : result R :=
  gtol <- dict_getitem (options self) "gtol" ;;
  ftol <- dict_getitem (options self) "ftol" ;;
  let xtol := tol self in
  epsfcn <- dict_getitem (options self) "eps" ;;
  maxfev <- dict_getitem (options self) "maxiter" ;;
  res <- (if SCIPY_LESS_0_17 then
            leastsq (D_star_residual (gtab self) data other_params)
                    [Finite 0.0005]
                    {| lq_gtol := gtol; lq_xtol := xtol; lq_ftol := ftol;
                       lq_epsfcn := epsfcn; lq_maxfev := maxfev |}
          else
            least_squares (D_star_residual (gtab self) data other_params)
                    [Finite 0.0005]
                    (Some ([Finite 0], [Finite 0.01]))
                    {| ls_ftol := ftol; ls_xtol := xtol; ls_gtol := gtol;
                       ls_max_nfev := maxfev |}) ;;
  match res with
  | [D_star] => Ok D_star
  | _ => Raise (ValueError "setting an array element with a sequence.")
  end.

(** [_leastsq(self, data, x0)] *)
Definition _leastsq (self : t) (data : list R) (x0 : list xreal)
    : result (list R) :=
  gtol <- dict_getitem (options self) "gtol" ;;
  ftol <- dict_getitem (options self) "ftol" ;;
  let xtol := tol self in
  epsfcn <- dict_getitem (options self) "eps" ;;
  maxfev <- dict_getitem (options self) "maxiter" ;;
  let bounds := bounds self in
  if SCIPY_LESS_0_17 then
    leastsq (fun params => _ivim_error params (gtab self) data) x0
            {| lq_gtol := gtol; lq_xtol := xtol; lq_ftol := ftol;
               lq_epsfcn := epsfcn; lq_maxfev := maxfev |}
  else
    least_squares (fun params => _ivim_error params (gtab self) data) x0
            bounds
            {| ls_ftol := ftol; ls_xtol := xtol; ls_gtol := gtol;
               ls_max_nfev := maxfev |}.

(** The interval [bounds_check] of [fit] (lines 249-252). *)
Definition bounds_check (self : t) : bounds_t :=
  match bounds self with
  | None => fallback_bounds
  | Some b => b
  end.

(** The two [np.where] lines of [fit] (lines 254-255). *)
Definition clamp (x0 : list xreal) (bounds_check : bounds_t)
    : result (list xreal) :=
  above <- Np.broadcast2 (fun x lo => xltb lo x) x0 (fst bounds_check) ;;
  x0 <- Np.where_ above x0 (fst bounds_check) ;;
  below <- Np.broadcast2 xltb x0 (snd bounds_check) ;;
  Np.where_ below x0 (snd bounds_check).

(** The four estimates that make up [x0] (lines 239-244). *)
Definition initial_guess (self : t) (data : list R) : result (list R) :=
  '(S0_prime, D) <- estimate_S0_prime_D self data ;;
  '(S0, D_star_prime) <- estimate_S0_D_star_prime self data ;;
  let f := 1 - S0_prime / S0 in
  D_star <- estimate_D_star self data [S0; f; D] ;;
  Ok [S0; f; D_star; D].

(** [IvimModel.fit(self, data, mask=None)] for one voxel: the body under the
    [multi_voxel_fit] decorator, which applies it to each voxel in turn. *)
Definition fit (self : t) (data : list R) : result (IvimFit.t t) :=
  x0 <- initial_guess self data ;;
  if String.eqb (method self) "one_stage" then
    Ok (IvimFit.__init__ self (array x0))
  else
    let bounds_check := bounds_check self in
    x0 <- clamp (map Finite x0) bounds_check ;;
    params_in_mask <- _leastsq self data x0 ;;
    Ok (IvimFit.__init__ self (array params_in_mask)).

(** [IvimModel.predict(self, ivim_params, gtab, S0=1.)] *)
Definition predict (self : t) (ivim_params : list R) (gtab : GradientTable)
    : result (list R) :=
  ivim_prediction ivim_params gtab.

End WithExternals.
End IvimModel.

(** ** A reference instance of the library routines

    Used to run the model on concrete inputs. *)

Module Reference.
Open Scope R_scope.

Definition Rsum (l : list R) : R := fold_right Rplus 0 l.

(** What [np.polyfit] returns when the points do not determine a line (all
    the [x] are equal to [x0], in particular when there is one point): the
    minimum-norm solution of the column-scaled system, which for degree 1 is
    slope [mean(y) / (2 x0)] and intercept [mean(y) / 2].  numpy issues a
    [RankWarning] there, which is not an error.  With [x0 = 0] the scaling
    divides by zero and the solve is abandoned with a [LinAlgError], a
    [ValueError]. *)
Definition min_norm_line (x0 : R) (y : list R) : result (list R) :=
  if Reqb x0 0 then
    Raise (ValueError "SVD did not converge in Linear Least Squares")
  else
    let mean := Rsum y / INR (length y) in
    Ok [mean / (2 * x0); mean / 2].

(** [np.polyfit(x, y, 1)] over the reals ([np.polyfit] is library code; only
    degree 1, the one the model asks for, is provided).  An empty [x] and
    operands of different lengths are rejected; points that determine a line
    give the closed-form least-squares line; points that do not give
    [min_norm_line]. *)
Definition ols_line (x y : list R) (deg : nat) : result (list R) :=
  if negb (Nat.eqb deg 1) then
    Raise (ValueError "only a degree-1 fit is provided")
  else if Nat.eqb (length x) 0 then
    Raise (TypeError "expected non-empty vector for x")
  else if negb (Nat.eqb (length x) (length y)) then
    Raise (TypeError "expected x and y to have same length")
  else
    let n := INR (length x) in
    let Sx := Rsum x in
    let Sy := Rsum y in
    let Sxx := Rsum (map (fun p => fst p * fst p) (combine x y)) in
    let Sxy := Rsum (map (fun p => fst p * snd p) (combine x y)) in
    let den := n * Sxx - Sx * Sx in
    if Reqb den 0 then
      min_norm_line (hd 0 x) y
    else
      let slope := (n * Sxy - Sx * Sy) / den in
      let intercept := (Sy - slope * Sx) / n in
      Ok [slope; intercept].

Fixpoint finite_values (x : list xreal) : result (list R) :=
  match x with
  | [] => Ok []
  | Finite r :: x' => rs <- finite_values x' ;; Ok (r :: rs)
  | _ :: _ => Raise (ValueError "Residuals are not finite in the initial point.")
  end.

(** A bounded solver that makes no step: an infeasible starting point is
    rejected, as [least_squares] rejects it, and a feasible one is returned
    as the solution. *)
Definition least_squares_no_step (fun_ : residual) (x0 : list xreal)
    (bounds : option bounds_t) (kw : least_squares_kw) : result (list R) :=
  match bounds with
  | None => Raise (TypeError "object of type 'NoneType' has no len()")
  | Some (lb, ub) =>
      above <- Np.broadcast2 xleb lb x0 ;;
      below <- Np.broadcast2 xleb x0 ub ;;
      if Nat.eqb (length above) (length x0) && Nat.eqb (length below) (length x0)
         && forallb (fun b => b) above && forallb (fun b => b) below
      then finite_values x0
      else Raise (ValueError "`x0` is infeasible.")
  end.

(** An unbounded solver that makes no step. *)
Definition leastsq_no_step (fun_ : residual) (x0 : list xreal)
    (kw : leastsq_kw) : result (list R) :=
  finite_values x0.

(** The reference instance on a platform with a bounded solver. *)
Definition externals : Externals :=
  {| SCIPY_LESS_0_17 := false;
     polyfit := ols_line;
     least_squares := least_squares_no_step;
     leastsq := leastsq_no_step |}.

(** Four measurements, two on each side of the default split. *)
Definition sample_gtab : GradientTable :=
  {| bvals := [0; 100; 200; 300];
     bvecs := [(0, 0, 0); (1, 0, 0); (0, 1, 0); (0, 0, 1)];
     b0s_mask := [true; false; false; false] |}.

(** A signal that grows between b = 200 and b = 300. *)
Definition sample_data : list R := [1; 1; 1; exp 1].

(** The model [IvimModel(sample_gtab)] and its one-stage variant. *)
Definition sample_model (method : string) : IvimModel.t :=
  {| IvimModel.gtab := sample_gtab;
     IvimModel.split_b := IvimModel.default_split_b;
     IvimModel.bounds := Some IvimModel.solver_bounds;
     IvimModel.tol := IvimModel.default_tol;
     IvimModel.options := IvimModel.default_options;
     IvimModel.method := method |}.

(** A gradient table without any b0 measurement. *)
Definition no_b0_gtab : GradientTable :=
  {| bvals := [100; 200; 300];
     bvecs := [(1, 0, 0); (0, 1, 0); (0, 0, 1)];
     b0s_mask := [false; false; false] |}.

(** A table with a single measurement at or above the default split. *)
Definition lopsided_gtab : GradientTable :=
  {| bvals := [0; 50; 100; 300];
     bvecs := [(0, 0, 0); (1, 0, 0); (0, 1, 0); (0, 0, 1)];
     b0s_mask := [true; false; false; false] |}.

(** [IvimModel(lopsided_gtab)] *)
Definition lopsided_model (method : string) : IvimModel.t :=
  {| IvimModel.gtab := lopsided_gtab;
     IvimModel.split_b := IvimModel.default_split_b;
     IvimModel.bounds := Some IvimModel.solver_bounds;
     IvimModel.tol := IvimModel.default_tol;
     IvimModel.options := IvimModel.default_options;
     IvimModel.method := method |}.

(** The parameters of a 2 x 3 x 5 grid of voxels, and a result over it. *)
Definition grid_params : NdArray.ndarray :=
  {| NdArray.shape := [2; 3; 5; 4]%nat;
     NdArray.item := fun ix =>
       match ix with
       | [x; y; z; p] => INR (x + 2 * y + 6 * z + 30 * p)
       | _ => 0
       end |}.

Definition grid_fit : IvimFit.t IvimModel.t :=
  IvimFit.__init__ (sample_model "two_stage") grid_params.

(** A model whose options lack the key 'eps'. *)
Definition no_eps_model : IvimModel.t :=
  {| IvimModel.gtab := sample_gtab;
     IvimModel.split_b := IvimModel.default_split_b;
     IvimModel.bounds := Some IvimModel.solver_bounds;
     IvimModel.tol := IvimModel.default_tol;
     IvimModel.options :=
       [("gtol"%string, 1e-10); ("ftol"%string, 1e-10);
        ("maxiter"%string, 1000)];
     IvimModel.method := "two_stage" |}.

(** A signal that does not decay at all. *)
Definition flat_data : list R := [1; 1; 1; 1].

(** Bounds a caller might pass to the constructor. *)
Definition custom_bounds : bounds_t :=
  ([Finite 0; Finite 0; Finite 0; Finite 0],
   [Finite 1000; Finite 0.5; Finite 0.1; Finite 0.01]).

End Reference.

(** ** Notions the statements use *)

(** The clamp as the specification words it: a component above the upper
    bound is replaced by the upper bound, one below the lower bound by the
    lower bound. *)
Definition spec_clip (x lo hi : xreal) : xreal :=
  if xltb hi x then hi else if xltb x lo then lo else x.

(** What the two [np.where] lines compute for one component. *)
Definition clamp1 (x lo hi : xreal) : xreal :=
  let x := if xltb lo x then x else lo in
  if xltb x hi then x else hi.

(** A parameter vector lies within a pair of bounds arrays, endpoints
    included. *)
Definition within_bounds (x : list R) (b : bounds_t) : Prop :=
  length (fst b) = length x /\ length (snd b) = length x /\
  forall i, (i < length x)%nat ->
    xle (nth i (fst b) NegInf) (Finite (nth i x 0%R)) /\
    xle (Finite (nth i x 0%R)) (nth i (snd b) PosInf).

(** The four fitted parameters of a single-voxel result lie within a pair of
    bounds arrays, endpoints included. *)
Definition fit_within_bounds (r : IvimFit.t IvimModel.t) (b : bounds_t)
    : Prop :=
  NdArray.shape (IvimFit.model_params r) = [4%nat] /\
  forall i, (i < 4)%nat ->
    xle (nth i (fst b) NegInf)
        (Finite (NdArray.item (IvimFit.model_params r) [i])) /\
    xle (Finite (NdArray.item (IvimFit.model_params r) [i]))
        (nth i (snd b) PosInf).

(** The measurements on either side of the split threshold. *)
Definition at_or_above_split (self : IvimModel.t) : list R :=
  filter (fun b => Rleb (IvimModel.split_b self) b)
         (bvals (IvimModel.gtab self)).

Definition below_split (self : IvimModel.t) : list R :=
  filter (fun b => Rltb b (IvimModel.split_b self))
         (bvals (IvimModel.gtab self)).

(** The signal entries [fit] regresses on, on either side of the split. *)
Definition data_at_or_above_split (m : IvimModel.t) (data : list R) : list R :=
  Np.compress (map (fun b => Rleb (IvimModel.split_b m) b) (bvals (IvimModel.gtab m))) data.

Definition data_below_split (m : IvimModel.t) (data : list R) : list R :=
  Np.compress (map (fun b => Rltb b (IvimModel.split_b m)) (bvals (IvimModel.gtab m))) data.

(** An index entry is valid for an axis of length [d]: an integer within
    [-d, d), or a slice whose step is not zero. *)
Definition valid_item (it : NdArray.index_item) (d : nat) : Prop :=
  match it with
  | NdArray.Int i => (- Z.of_nat d <= i < Z.of_nat d)%Z
  | NdArray.Slice _ _ step => step <> Some 0%Z
  end.

(** A tuple is a valid index for the leading axes of a shape. *)
Fixpoint valid_index (its : list NdArray.index_item) (s : list nat) : Prop :=
  match its, s with
  | [], _ => True
  | _ :: _, [] => False
  | it :: its', d :: s' => valid_item it d /\ valid_index its' s'
  end.

(** The entries of what is written between the brackets. *)
Definition index_entries (index : IvimFit.index)
    : list NdArray.index_item :=
  match index with
  | IvimFit.Single it => [it]
  | IvimFit.Tuple its => its
  end.

(** An accessor of the result container commutes with indexing: read on the
    indexed result [r], it gives the array that indexing the accessor of
    [self] gives. *)
Definition accessor_commutes {Model : Type}
    (acc : IvimFit.t Model -> result NdArray.ndarray)
    (self r : IvimFit.t Model) (its : list NdArray.index_item) : Prop :=
  exists of_r of_self indexed,
    acc r = Ok of_r /\
    acc self = Ok of_self /\
    NdArray.getitem of_self its = Ok indexed /\
    NdArray.same_array of_r indexed.

(** The closed form of the signal at one b-value. *)
Definition S_at (S0 f D_star D b : R) : R :=
  (S0 * (f * exp (- b * D_star) + (1 - f) * exp (- b * D)))%R.

(** The model with another method string. *)
Definition with_method (m : IvimModel.t) (meth : string) : IvimModel.t :=
  {| IvimModel.gtab := IvimModel.gtab m;
     IvimModel.split_b := IvimModel.split_b m;
     IvimModel.bounds := IvimModel.bounds m;
     IvimModel.tol := IvimModel.tol m;
     IvimModel.options := IvimModel.options m;
     IvimModel.method := meth |}.

(** * Properties *)

(** ** Broadcasting *)

Section BroadcastFacts.
Context {A B C : Type}.
Variable f : A -> B -> C.

Lemma broadcast2_aligned (xs : list A) (ys : list B) :
  length xs = length ys ->
  Np.broadcast2 f xs ys =
  Ok (map (fun p => f (fst p) (snd p)) (combine xs ys)).
Proof.
  intros Hlen. unfold Np.broadcast2.
  rewrite Hlen, Nat.eqb_refl. reflexivity.
Qed.

Lemma zip_length (xs : list A) (ys : list B) :
  length xs = length ys ->
  length (map (fun p => f (fst p) (snd p)) (combine xs ys)) = length xs.
Proof.
  intros Hlen. rewrite length_map, length_combine, <- Hlen.
  apply Nat.min_id.
Qed.

Lemma zip_nth (xs : list A) : forall (ys : list B) (i : nat) dx dy dz,
  length xs = length ys ->
  (i < length xs)%nat ->
  nth i (map (fun p => f (fst p) (snd p)) (combine xs ys)) dz
  = f (nth i xs dx) (nth i ys dy).
Proof.
  induction xs as [|x xs IH]; intros [|y ys] i dx dy dz Hlen Hi;
    simpl in *; try lia; try discriminate.
  destruct i as [|i]; [reflexivity|].
  apply IH; lia.
Qed.

End BroadcastFacts.

(** ** The signal model *)

Section SignalModelFacts.
Open Scope R_scope.

Lemma ivim_prediction_unfold (S0 f D_star D : R) (gtab : GradientTable) :
  ivim_prediction [S0; f; D_star; D] gtab
  = Ok (map (S_at S0 f D_star D) (bvals gtab)).
Proof. reflexivity. Qed.

(** C8. For every parameter tuple (S0, f, D_star, D) and every table of
    b-values, [ivim_prediction] returns one value per b-value, and that value
    is S0 * (f * exp(-b*D_star) + (1-f) * exp(-b*D)); for a signal aligned
    with the table, [_ivim_error] returns the signal minus this prediction,
    entry by entry, in a vector as long as the signal. *)
Theorem ivim_prediction_and_residual
    (S0 f D_star D : R) (gtab : GradientTable) (signal : list R)
    (Haligned : length signal = length (bvals gtab)) :
  exists S err,
    ivim_prediction [S0; f; D_star; D] gtab = Ok S /\
    length S = length (bvals gtab) /\
    (forall i, (i < length (bvals gtab))%nat ->
       let b := nth i (bvals gtab) 0 in
       nth i S 0 = S0 * (f * exp (- b * D_star) + (1 - f) * exp (- b * D))) /\
    _ivim_error [S0; f; D_star; D] gtab signal = Ok err /\
    length err = length signal /\
    (forall i, (i < length signal)%nat ->
       nth i err 0 = nth i signal 0 - nth i S 0).
Proof.
  set (S := map (S_at S0 f D_star D) (bvals gtab)).
  assert (HS : length signal = length S) by (subst S; now rewrite length_map).
  exists S, (map (fun p => fst p - snd p) (combine signal S)).
  split; [apply ivim_prediction_unfold|].
  split; [subst S; apply length_map|].
  split.
  { intros i Hi b. subst S b.
    rewrite (nth_indep _ 0 (S_at S0 f D_star D 0))
      by (rewrite length_map; lia).
    now rewrite map_nth. }
  split.
  { unfold _ivim_error. rewrite ivim_prediction_unfold. simpl.
    fold S. now rewrite (broadcast2_aligned Rminus _ _ HS). }
  split.
  { apply (zip_length Rminus _ _ HS). }
  intros i Hi. apply (zip_nth Rminus); assumption.
Qed.

(** Witness for C8: three b-values and an aligned three-entry signal. *)
Lemma ivim_prediction_and_residual_witness :
  length [10; 9; 8] = length (bvals Reference.no_b0_gtab) /\
  exists S err,
    ivim_prediction [10; 0.1; 0.01; 0.001] Reference.no_b0_gtab = Ok S /\
    length S = length (bvals Reference.no_b0_gtab) /\
    (forall i, (i < length (bvals Reference.no_b0_gtab))%nat ->
       let b := nth i (bvals Reference.no_b0_gtab) 0 in
       nth i S 0 = 10 * (0.1 * exp (- b * 0.01) + (1 - 0.1) * exp (- b * 0.001))) /\
    _ivim_error [10; 0.1; 0.01; 0.001] Reference.no_b0_gtab [10; 9; 8] = Ok err /\
    length err = length [10; 9; 8] /\
    (forall i, (i < length [10; 9; 8])%nat ->
       nth i err 0 = nth i [10; 9; 8] 0 - nth i S 0).
Proof.
  split; [reflexivity|].
  apply (ivim_prediction_and_residual 10 0.1 0.01 0.001
           Reference.no_b0_gtab [10; 9; 8]).
  reflexivity.
Defined.

(** C10. With f = 0 the prediction is the mono-exponential decay
    S0 * exp(-b*D) at each b-value, whatever D_star is. *)
Theorem ivim_prediction_f_zero
    (S0 D_star D : R) (gtab : GradientTable) :
  ivim_prediction [S0; 0; D_star; D] gtab
  = Ok (map (fun b => S0 * exp (- b * D)) (bvals gtab))
  /\ forall D_star' : R,
       ivim_prediction [S0; 0; D_star'; D] gtab
       = ivim_prediction [S0; 0; D_star; D] gtab.
Proof.
  assert (H : forall Ds,
             ivim_prediction [S0; 0; Ds; D] gtab
             = Ok (map (fun b => S0 * exp (- b * D)) (bvals gtab))).
  { intros Ds. rewrite ivim_prediction_unfold. f_equal.
    apply map_ext. intros b. unfold S_at. ring. }
  split; [apply H|].
  intros D_star'. now rewrite !H.
Qed.

End SignalModelFacts.

(** ** Comparisons of reals *)

Section RealComparisons.
Open Scope R_scope.

Lemma Rleb_true (x y : R) : x <= y -> Rleb x y = true.
Proof. intros H. unfold Rleb. destruct (Rle_dec x y); [reflexivity|lra]. Qed.

Lemma Rleb_false (x y : R) : y < x -> Rleb x y = false.
Proof. intros H. unfold Rleb. destruct (Rle_dec x y); [lra|reflexivity]. Qed.

Lemma Rltb_true (x y : R) : x < y -> Rltb x y = true.
Proof. intros H. unfold Rltb. destruct (Rlt_dec x y); [reflexivity|lra]. Qed.

Lemma Rltb_false (x y : R) : y <= x -> Rltb x y = false.
Proof. intros H. unfold Rltb. destruct (Rlt_dec x y); [lra|reflexivity]. Qed.

Lemma Reqb_false (x y : R) : x <> y -> Reqb x y = false.
Proof.
  intros H. unfold Reqb. destruct (Req_dec_T x y); [contradiction|reflexivity].
Qed.

End RealComparisons.

(** Decide the comparisons of concrete reals that occur in the goal. *)
Ltac Rcompare :=
  repeat first
    [ rewrite Rleb_true by lra
    | rewrite Rleb_false by lra
    | rewrite Rltb_true by lra
    | rewrite Rltb_false by lra ].

(** ** Running the reference instance *)

Section ReferenceRuns.
Import Reference.
Open Scope R_scope.


(** The least-squares line through two points is the line through them. *)
Lemma ols_line_two_points (x1 x2 y1 y2 : R) :
  x1 <> x2 ->
  ols_line [x1; x2] [y1; y2] 1
  = Ok [(y2 - y1) / (x2 - x1); (y1 * x2 - y2 * x1) / (x2 - x1)].
Proof.
  intros Hx. unfold ols_line. cbn -[min_norm_line].
  rewrite Reqb_false.
  - f_equal. f_equal; [|f_equal]; field; split; try lra; nra.
  - nra.
Qed.

Lemma sample_estimate_S0_prime_D (meth : string) :
  IvimModel.estimate_S0_prime_D (E := externals) (sample_model meth) sample_data
  = Ok (exp (- 2), - 0.01).
Proof.
  unfold IvimModel.estimate_S0_prime_D, sample_model, sample_data,
    IvimModel.default_split_b. simpl.
  Rcompare. simpl.
  rewrite ln_1, ln_exp, ols_line_two_points by lra. simpl.
  f_equal. f_equal; [f_equal|]; lra.
Qed.

Lemma sample_estimate_S0_D_star_prime (meth : string) :
  IvimModel.estimate_S0_D_star_prime (E := externals) (sample_model meth)
    sample_data
  = Ok (1, 0).
Proof.
  unfold IvimModel.estimate_S0_D_star_prime, sample_model, sample_data,
    IvimModel.default_split_b. simpl.
  Rcompare. simpl.
  rewrite ln_1, ols_line_two_points by lra. simpl.
  f_equal. f_equal; [|lra].
  rewrite <- exp_0. f_equal. lra.
Qed.

Lemma exp_minus_2_bounds : 0 < exp (- 2) < 1.
Proof.
  split; [apply exp_pos|].
  rewrite <- exp_0. apply exp_increasing. lra.
Qed.

Lemma sample_estimate_D_star (meth : string) (other_params : list R) :
  IvimModel.estimate_D_star (E := externals) (sample_model meth) sample_data
    other_params
  = Ok 0.0005.
Proof.
  unfold IvimModel.estimate_D_star, sample_model. simpl.
  unfold least_squares_no_step. simpl.
  Rcompare. reflexivity.
Qed.

(** The staged estimates on the sample: D comes out negative. *)
Lemma sample_initial_guess (meth : string) :
  IvimModel.initial_guess (E := externals) (sample_model meth) sample_data
  = Ok [1; 1 - exp (- 2) / 1; 0.0005; - 0.01].
Proof.
  unfold IvimModel.initial_guess.
  rewrite sample_estimate_S0_prime_D, sample_estimate_S0_D_star_prime. simpl.
  rewrite sample_estimate_D_star. reflexivity.
Qed.

Lemma sample_clamp :
  IvimModel.clamp (map Finite [1; 1 - exp (- 2) / 1; 0.0005; - 0.01])
    IvimModel.solver_bounds
  = Ok [Finite 1; Finite (1 - exp (- 2) / 1); Finite 0.0005; Finite 0].
Proof.
  pose proof exp_minus_2_bounds as He.
  unfold IvimModel.clamp, IvimModel.solver_bounds, Np.where_. simpl.
  Rcompare. simpl. Rcompare. reflexivity.
Qed.

Lemma sample_leastsq (meth : string) :
  IvimModel._leastsq (E := externals) (sample_model meth) sample_data
    [Finite 1; Finite (1 - exp (- 2) / 1); Finite 0.0005; Finite 0]
  = Ok [1; 1 - exp (- 2) / 1; 0.0005; 0].
Proof.
  pose proof exp_minus_2_bounds as He.
  unfold IvimModel._leastsq, sample_model. simpl.
  unfold least_squares_no_step, IvimModel.solver_bounds. simpl.
  Rcompare. reflexivity.
Qed.

Lemma sample_fit_one_stage :
  IvimModel.fit (E := externals) (sample_model "one_stage") sample_data
  = Ok (IvimFit.__init__ (sample_model "one_stage")
          (NdArray.array [1; 1 - exp (- 2) / 1; 0.0005; - 0.01])).
Proof.
  unfold IvimModel.fit. rewrite sample_initial_guess. reflexivity.
Qed.

Lemma sample_fit_two_stage :
  IvimModel.fit (E := externals) (sample_model "two_stage") sample_data
  = Ok (IvimFit.__init__ (sample_model "two_stage")
          (NdArray.array [1; 1 - exp (- 2) / 1; 0.0005; 0])).
Proof.
  unfold IvimModel.fit. rewrite sample_initial_guess.
  cbn [bind IvimModel.method sample_model String.eqb Ascii.eqb Bool.eqb].
  change (IvimModel.bounds_check (sample_model "two_stage"))
    with IvimModel.solver_bounds.
  rewrite sample_clamp.
  cbn [bind]. rewrite sample_leastsq. reflexivity.
Qed.

End ReferenceRuns.

(** ** Construction *)

Section ConstructionFacts.
Context {E : Externals}.
Import IvimModel.

Lemma any_true_iff (mask : list bool) : Np.any mask = true <-> In true mask.
Proof.
  unfold Np.any. rewrite existsb_exists. split.
  - intros [b [Hin Hb]]. now subst b.
  - intros Hin. now exists true.
Qed.

Lemma dict_getitem_raise (d : dict) (key : string) (e : exn) :
  dict_getitem d key = Raise e -> e = KeyError key.
Proof.
  induction d as [|[k v] d IH]; simpl.
  - intros H. now injection H as <-.
  - destruct (k =? key)%string; [discriminate|exact IH].
Qed.

Lemma messages_differ : no_b0_message <> no_bounds_message.
Proof. unfold no_b0_message, no_bounds_message. simpl. discriminate. Qed.

Lemma init_ok_inv (gtab' : GradientTable) (split_b' : R) (method' : string)
    (bounds' : option bounds_t) (tol' : R) (options' : dict) (m : t) :
  __init__ gtab' split_b' method' bounds' tol' options' = Ok m ->
  m = {| gtab := gtab'; split_b := split_b'; bounds := Some solver_bounds;
         tol := tol'; options := options'; method := method' |}.
Proof.
  unfold __init__.
  destruct (negb (Np.any (b0s_mask gtab'))); [discriminate|].
  cbn [bounds].
  destruct (SCIPY_LESS_0_17 && _); [discriminate|].
  intros H. injection H as <-. reflexivity.
Qed.

(** C7. Construction raises the "no b0" [ValueError] exactly when the
    gradient table flags no measurement as b0: without one the constructor
    raises at once and no model exists to fit with; with one, whatever else
    happens, this error is not raised. *)
Theorem init_requires_b0
    (gtab' : GradientTable) (split_b' : R) (method' : string)
    (bounds' : option bounds_t) (tol' : R) (options' : dict) :
  __init__ gtab' split_b' method' bounds' tol' options'
    = Raise (ValueError no_b0_message)
  <-> ~ In true (b0s_mask gtab').
Proof.
  rewrite <- any_true_iff. unfold __init__.
  destruct (Np.any (b0s_mask gtab')); cbn [negb].
  - split; [|intros H; now contradiction H].
    destruct (SCIPY_LESS_0_17 && _); intros H; [|discriminate].
    exfalso. apply messages_differ. congruence.
  - split; [discriminate|reflexivity].
Qed.

(** C4. On a platform with the bounded solver, a model that was constructed
    stores the default pair ([0, 0, 0, 0], [inf, 1, 0.05, 0.005]) whatever
    [bounds] argument the constructor was given; that pair is the clamp
    interval of [fit] and the one [_leastsq] hands to [least_squares]. *)
Theorem init_stores_default_bounds
    (Hbounded : SCIPY_LESS_0_17 = false)
    (gtab' : GradientTable) (split_b' : R) (method' : string)
    (bounds' : option bounds_t) (tol' : R) (options' : dict) (m : t)
    (Hinit : __init__ gtab' split_b' method' bounds' tol' options' = Ok m) :
  bounds m = Some solver_bounds /\
  bounds_check m = solver_bounds /\
  forall (data : list R) (x0 : list xreal),
    (exists key, _leastsq m data x0 = Raise (KeyError key)) \/
    (exists kw,
       _leastsq m data x0
       = least_squares (fun params => _ivim_error params (gtab m) data) x0
           (Some solver_bounds) kw).
Proof.
  apply init_ok_inv in Hinit. subst m.
  split; [reflexivity|]. split; [reflexivity|].
  intros data x0. unfold _leastsq. rewrite Hbounded. cbn [options bounds tol gtab].
  destruct (dict_getitem options' "gtol") as [gtol|e] eqn:Hg; cbn [bind];
    [|left; apply dict_getitem_raise in Hg; subst e; now eexists].
  destruct (dict_getitem options' "ftol") as [ftol|e] eqn:Hf; cbn [bind];
    [|left; apply dict_getitem_raise in Hf; subst e; now eexists].
  destruct (dict_getitem options' "eps") as [eps|e] eqn:He; cbn [bind];
    [|left; apply dict_getitem_raise in He; subst e; now eexists].
  destruct (dict_getitem options' "maxiter") as [mi|e] eqn:Hm; cbn [bind];
    [|left; apply dict_getitem_raise in Hm; subst e; now eexists].
  right. eexists. reflexivity.
Qed.

End ConstructionFacts.

(** Witness for C4: custom bounds handed to the constructor are replaced. *)
Lemma init_stores_default_bounds_witness :
  IvimModel.__init__ (E := Reference.externals) Reference.sample_gtab
    IvimModel.default_split_b "two_stage" (Some Reference.custom_bounds)
    IvimModel.default_tol IvimModel.default_options
  = Ok (Reference.sample_model "two_stage")
  /\ IvimModel.bounds (Reference.sample_model "two_stage")
     = Some IvimModel.solver_bounds.
Proof.
  assert (Hinit :
    IvimModel.__init__ (E := Reference.externals) Reference.sample_gtab
      IvimModel.default_split_b "two_stage" (Some Reference.custom_bounds)
      IvimModel.default_tol IvimModel.default_options
    = Ok (Reference.sample_model "two_stage")) by reflexivity.
  split; [exact Hinit|].
  exact (proj1 (init_stores_default_bounds (E := Reference.externals)
                  eq_refl _ _ _ _ _ _ Hinit)).
Defined.

(** ** The clamp *)

Section ClampFacts.
Import IvimModel.

Lemma clamp_four (a0 a1 a2 a3 l0 l1 l2 l3 h0 h1 h2 h3 : xreal) :
  clamp [a0; a1; a2; a3] ([l0; l1; l2; l3], [h0; h1; h2; h3])
  = Ok [clamp1 a0 l0 h0; clamp1 a1 l1 h1; clamp1 a2 l2 h2; clamp1 a3 l3 h3].
Proof. reflexivity. Qed.

Lemma xle_Finite (a b : R) : xle (Finite a) (Finite b) <-> (a <= b)%R.
Proof. reflexivity. Qed.

Lemma xltb_Finite (a b : R) : xltb (Finite a) (Finite b) = Rltb a b.
Proof. reflexivity. Qed.

(** Where the lower bound does not exceed the upper one, the two [np.where]
    lines clip as the specification says. *)
Lemma clamp1_spec (x lo hi : xreal) :
  xle lo hi -> clamp1 x lo hi = spec_clip x lo hi.
Proof.
  unfold clamp1, spec_clip.
  destruct x as [x| |], lo as [lo| |], hi as [hi| |]; simpl;
    try tauto; try reflexivity;
    repeat (unfold Rltb;
            match goal with
            | |- context [Rlt_dec ?a ?b] => destruct (Rlt_dec a b)
            end; simpl);
    intros H; try reflexivity; try lra; f_equal; lra.
Qed.

Lemma spec_clip_within (x lo hi : xreal) :
  xle lo hi -> xle lo (spec_clip x lo hi) /\ xle (spec_clip x lo hi) hi.
Proof.
  unfold spec_clip.
  destruct x as [x| |], lo as [lo| |], hi as [hi| |]; simpl;
    try tauto;
    repeat (unfold Rltb;
            match goal with
            | |- context [Rlt_dec ?a ?b] => destruct (Rlt_dec a b)
            end; simpl);
    intros H; split; try exact I; try lra.
Qed.

End ClampFacts.

(** ** The per-voxel fit *)

Section FitFacts.
Context {E : Externals}.
Import IvimModel NdArray.

Lemma initial_guess_four (m : t) (data x0 : list R) :
  initial_guess m data = Ok x0 -> exists a0 a1 a2 a3, x0 = [a0; a1; a2; a3].
Proof.
  unfold initial_guess.
  destruct (estimate_S0_prime_D m data) as [[S0' D]|]; [|discriminate].
  destruct (estimate_S0_D_star_prime m data) as [[S0 Dsp]|]; [|discriminate].
  cbn [bind].
  destruct (estimate_D_star m data _) as [Ds|]; [|discriminate].
  cbn [bind]. intros H. injection H as <-. now eexists _, _, _, _.
Qed.

Lemma fit_unfold (m : t) (data x0 : list R) :
  initial_guess m data = Ok x0 ->
  fit m data =
  if String.eqb (method m) "one_stage" then
    Ok (IvimFit.__init__ m (array x0))
  else
    x <- clamp (map Finite x0) (bounds_check m) ;;
    params <- _leastsq m data x ;;
    Ok (IvimFit.__init__ m (array params)).
Proof. intros H. unfold fit. now rewrite H. Qed.

(** C1, amended. With any method other than 'one_stage', the initial guess
    is clamped elementwise into the bounds-check interval (a component above
    the upper bound becomes the upper bound, one below the lower bound the
    lower bound) and this clamped guess is what the final solver starts from;
    with method 'one_stage', [fit] returns the initial guess as it was
    estimated, not clamped and not refined. *)
Theorem fit_clamps_only_before_refinement
    (m : t) (data : list R) (a0 a1 a2 a3 : R)
    (l0 l1 l2 l3 h0 h1 h2 h3 : xreal)
    (Hguess : initial_guess m data = Ok [a0; a1; a2; a3])
    (Hinterval : bounds_check m = ([l0; l1; l2; l3], [h0; h1; h2; h3]))
    (H0 : xle l0 h0) (H1 : xle l1 h1) (H2 : xle l2 h2) (H3 : xle l3 h3) :
  fit m data =
  if String.eqb (method m) "one_stage" then
    Ok (IvimFit.__init__ m (array [a0; a1; a2; a3]))
  else
    params <- _leastsq m data
                [spec_clip (Finite a0) l0 h0; spec_clip (Finite a1) l1 h1;
                 spec_clip (Finite a2) l2 h2; spec_clip (Finite a3) l3 h3] ;;
    Ok (IvimFit.__init__ m (array params)).
Proof.
  rewrite (fit_unfold _ _ Hguess), Hinterval.
  destruct (String.eqb (method m) "one_stage"); [reflexivity|].
  cbn [map]. rewrite clamp_four. cbn [bind].
  now rewrite !clamp1_spec by assumption.
Qed.

(** C3, amended. In a fit that goes on to the final solver, the clamp
    interval is the model's stored bounds, and the hardcoded envelope
    (D_star <= 0.01, D <= 0.001) only when no bounds are stored; a
    constructed model always stores the default pair (D_star <= 0.05,
    D <= 0.005), so its clamp interval is the pair passed to the solver. *)
Theorem fit_clamp_interval
    (m : t) (data x0 : list R)
    (Hguess : initial_guess m data = Ok x0)
    (Hmethod : method m <> "one_stage"%string) :
  fit m data =
    (x <- clamp (map Finite x0)
            (match bounds m with
             | None => fallback_bounds
             | Some stored => stored
             end) ;;
     params <- _leastsq m data x ;;
     Ok (IvimFit.__init__ m (array params)))
  /\ forall gtab' split_b' method' bounds' tol' options',
       __init__ gtab' split_b' method' bounds' tol' options' = Ok m ->
       bounds m = Some solver_bounds /\
       match bounds m with
       | None => fallback_bounds
       | Some stored => stored
       end = solver_bounds.
Proof.
  split.
  - rewrite (fit_unfold _ _ Hguess).
    apply String.eqb_neq in Hmethod. now rewrite Hmethod.
  - intros * Hinit. apply init_ok_inv in Hinit. now subst m.
Qed.

Lemma array_item (l : list R) (i : nat) : item (array l) [i] = nth i l 0%R.
Proof. reflexivity. Qed.

(** C2, amended. On a platform with the bounded solver, whose solution lies
    within the bounds it is given, every fit with a method other than
    'one_stage' that returns at all returns four parameters within the
    model's stored bounds, endpoints included. *)
Theorem fit_refined_within_bounds
    (Hbounded : SCIPY_LESS_0_17 = false)
    (Hsolver : forall fun_ x0 lb ub kw x,
        length lb = length x0 -> length ub = length x0 ->
        least_squares fun_ x0 (Some (lb, ub)) kw = Ok x ->
        within_bounds x (lb, ub))
    (m : t) (data : list R) (lb ub : list xreal) (r : IvimFit.t t)
    (Hmethod : method m <> "one_stage"%string)
    (Hbounds : bounds m = Some (lb, ub))
    (Hlb : length lb = 4%nat) (Hub : length ub = 4%nat)
    (Hfit : fit m data = Ok r) :
  fit_within_bounds r (lb, ub).
Proof.
  destruct (initial_guess m data) as [x0|e] eqn:Hguess;
    [|unfold fit in Hfit; rewrite Hguess in Hfit; discriminate].
  rewrite (fit_unfold _ _ Hguess) in Hfit.
  apply String.eqb_neq in Hmethod. rewrite Hmethod in Hfit.
  destruct (initial_guess_four _ _ Hguess) as (a0 & a1 & a2 & a3 & ->).
  unfold bounds_check in Hfit. rewrite Hbounds in Hfit.
  destruct lb as [|l0 [|l1 [|l2 [|l3 [|]]]]]; try discriminate.
  destruct ub as [|h0 [|h1 [|h2 [|h3 [|]]]]]; try discriminate.
  cbn [map] in Hfit. rewrite clamp_four in Hfit. cbn [bind] in Hfit.
  destruct (_leastsq m data _) as [params|] eqn:Hls; [|discriminate].
  cbn [bind] in Hfit. injection Hfit as <-.
  unfold _leastsq in Hls. rewrite Hbounded, Hbounds in Hls.
  destruct (dict_getitem (options m) "gtol"); [|discriminate].
  destruct (dict_getitem (options m) "ftol"); [|discriminate].
  destruct (dict_getitem (options m) "eps"); [|discriminate].
  destruct (dict_getitem (options m) "maxiter"); [|discriminate].
  cbn [bind] in Hls.
  apply Hsolver in Hls; [|reflexivity|reflexivity].
  destruct Hls as (Hl & _ & Hin). cbn [fst snd] in *.
  split.
  - cbn. now rewrite <- Hl.
  - intros i Hi. cbn [IvimFit.model_params IvimFit.__init__].
    rewrite array_item. apply Hin. rewrite <- Hl. exact Hi.
Qed.

(** The reading of [compress] under the mask of a predicate. *)
Lemma compress_filter {A : Type} (p : A -> bool) (l : list A) :
  Np.compress (map p l) l = filter p l.
Proof.
  induction l as [|a l IH]; [reflexivity|].
  simpl. destruct (p a); now rewrite IH.
Qed.

Lemma mask_select_own (p : R -> bool) (l : list R) :
  Np.mask_select l (map p l) = Ok (filter p l).
Proof.
  unfold Np.mask_select. rewrite length_map, Nat.eqb_refl.
  now rewrite compress_filter.
Qed.

Lemma mask_select_aligned {A : Type} (p : R -> bool) (bs : list R)
    (l : list A) :
  length l = length bs ->
  Np.mask_select l (map p bs) = Ok (Np.compress (map p bs) l).
Proof.
  intros H. unfold Np.mask_select. now rewrite length_map, H, Nat.eqb_refl.
Qed.

Lemma raises_bind {A B : Type} (c : result A) (k : A -> result B) :
  raises c -> raises (bind c k).
Proof. intros [e ->]. now exists e. Qed.

Lemma raises_Raise {A : Type} (e : exn) : raises (@Raise A e).
Proof. now exists e. Qed.

Lemma estimate_S0_prime_D_aligned (m : t) (data : list R) :
  length data = length (bvals (gtab m)) ->
  length (bvecs (gtab m)) = length (bvals (gtab m)) ->
  estimate_S0_prime_D m data =
  (coeffs <- polyfit (at_or_above_split m)
               (map (fun s => (- ln s)%R) (data_at_or_above_split m data)) 1 ;;
   match coeffs with
   | [D; neg_log_S0] => Ok (exp (- neg_log_S0), D)
   | _ => Raise (ValueError "too many values to unpack")
   end).
Proof.
  intros Hd Hv. unfold estimate_S0_prime_D.
  rewrite mask_select_own, !mask_select_aligned by assumption.
  reflexivity.
Qed.

Lemma estimate_S0_D_star_prime_aligned (m : t) (data : list R) :
  length data = length (bvals (gtab m)) ->
  length (bvecs (gtab m)) = length (bvals (gtab m)) ->
  estimate_S0_D_star_prime m data =
  (coeffs <- polyfit (below_split m)
               (map (fun s => (- ln s)%R) (data_below_split m data)) 1 ;;
   match coeffs with
   | [D_star_prime; neg_log_S0] => Ok (exp (- neg_log_S0), D_star_prime)
   | _ => Raise (ValueError "too many values to unpack")
   end).
Proof.
  intros Hd Hv. unfold estimate_S0_D_star_prime.
  rewrite mask_select_own, !mask_select_aligned by assumption.
  reflexivity.
Qed.

End FitFacts.

(** ** The reference solver honours its bounds *)

Section ReferenceSolverFacts.
Import Reference.

Lemma finite_values_inv (x0 : list xreal) : forall x,
  finite_values x0 = Ok x -> x0 = map Finite x.
Proof.
  induction x0 as [|[r| |] x0 IH]; simpl; intros x H; try discriminate.
  - now injection H as <-.
  - destruct (finite_values x0) as [rs|]; [|discriminate].
    injection H as <-. simpl. now rewrite (IH rs).
Qed.

Lemma xleb_xle (a b : xreal) : xleb a b = true -> xle a b.
Proof.
  destruct a, b; simpl; try discriminate; try exact (fun _ => I).
  unfold Rleb. destruct (Rle_dec r r0); [auto|discriminate].
Qed.

Lemma forallb_zip_nth {A B : Type} (f : A -> B -> bool)
    (xs : list A) (ys : list B) (i : nat) (dx : A) (dy : B) :
  length xs = length ys ->
  forallb (fun b => b) (map (fun p => f (fst p) (snd p)) (combine xs ys))
    = true ->
  (i < length xs)%nat ->
  f (nth i xs dx) (nth i ys dy) = true.
Proof.
  intros Hlen Hall Hi.
  rewrite <- (zip_nth f xs ys dx dy false Hlen Hi).
  rewrite forallb_forall in Hall. apply Hall, nth_In.
  now rewrite (zip_length f xs ys Hlen).
Qed.

Lemma least_squares_no_step_within
    (fun_ : residual) (x0 lb ub : list xreal) (kw : least_squares_kw)
    (x : list R) :
  length lb = length x0 -> length ub = length x0 ->
  least_squares_no_step fun_ x0 (Some (lb, ub)) kw = Ok x ->
  within_bounds x (lb, ub).
Proof.
  intros Hlb Hub. unfold least_squares_no_step.
  rewrite (broadcast2_aligned xleb lb x0 Hlb).
  rewrite (broadcast2_aligned xleb x0 ub (eq_sym Hub)). cbn [bind].
  destruct (_ && _) eqn:Hc; [|discriminate].
  intros Hfin. apply finite_values_inv in Hfin. subst x0.
  apply andb_prop in Hc as [Hc Hbelow].
  apply andb_prop in Hc as [_ Habove].
  rewrite length_map in Hlb, Hub.
  unfold within_bounds. cbn [fst snd].
  split; [exact Hlb|]. split; [exact Hub|].
  intros i Hi. split; apply xleb_xle.
  - rewrite <- (map_nth Finite x 0%R i).
    apply forallb_zip_nth; rewrite ?length_map; congruence || lia.
  - rewrite <- (map_nth Finite x 0%R i).
    apply forallb_zip_nth; rewrite ?length_map; congruence || lia.
Qed.

End ReferenceSolverFacts.

(** ** The claims on the sample voxel *)

Section SampleVoxel.
Import Reference IvimModel NdArray.
Open Scope R_scope.

(** Counterexample to C1 as stated: with method 'one_stage' the result is
    the estimated guess; its D is -0.01, where the clamped guess has 0. *)
Lemma one_stage_returns_unclamped_guess :
  exists x0 clamped r,
    initial_guess (E := externals) (sample_model "one_stage") sample_data
      = Ok x0 /\
    clamp (map Finite x0) (bounds_check (sample_model "one_stage"))
      = Ok (map Finite clamped) /\
    fit (E := externals) (sample_model "one_stage") sample_data = Ok r /\
    IvimFit.model_params r = array x0 /\
    item (IvimFit.model_params r) [3%nat] <> nth 3 clamped 0.
Proof.
  exists [1; 1 - exp (- 2) / 1; 0.0005; - 0.01],
         [1; 1 - exp (- 2) / 1; 0.0005; 0].
  eexists. split; [apply sample_initial_guess|].
  split; [apply sample_clamp|].
  split; [apply sample_fit_one_stage|].
  split; [reflexivity|]. simpl. lra.
Qed.

(** Witness for C1, amended: the two-stage fit of the sample voxel. *)
Lemma fit_clamps_only_before_refinement_witness :
  initial_guess (E := externals) (sample_model "two_stage") sample_data
    = Ok [1; 1 - exp (- 2) / 1; 0.0005; - 0.01] /\
  fit (E := externals) (sample_model "two_stage") sample_data =
  if String.eqb (method (sample_model "two_stage")) "one_stage" then
    Ok (IvimFit.__init__ (sample_model "two_stage")
          (array [1; 1 - exp (- 2) / 1; 0.0005; - 0.01]))
  else
    params <- _leastsq (E := externals) (sample_model "two_stage") sample_data
                [spec_clip (Finite 1) (Finite 0) PosInf;
                 spec_clip (Finite (1 - exp (- 2) / 1)) (Finite 0) (Finite 1);
                 spec_clip (Finite 0.0005) (Finite 0) (Finite 0.05);
                 spec_clip (Finite (- 0.01)) (Finite 0) (Finite 0.005)] ;;
    Ok (IvimFit.__init__ (sample_model "two_stage") (array params)).
Proof.
  split; [apply sample_initial_guess|].
  apply (fit_clamps_only_before_refinement (E := externals)
           (sample_model "two_stage") sample_data
           (sample_initial_guess "two_stage") eq_refl);
    simpl; try exact I; lra.
Defined.

(** Counterexample to C2 as stated: the one-stage fit of the sample voxel
    returns D = -0.01, below the stored lower bound 0. *)
Lemma one_stage_fit_leaves_bounds :
  exists r,
    fit (E := externals) (sample_model "one_stage") sample_data = Ok r /\
    bounds (sample_model "one_stage") = Some solver_bounds /\
    ~ fit_within_bounds r solver_bounds.
Proof.
  eexists. split; [apply sample_fit_one_stage|]. split; [reflexivity|].
  intros [_ H]. destruct (H 3%nat ltac:(lia)) as [Hlo _].
  simpl in Hlo. lra.
Qed.

(** Witness for C2, amended: the two-stage fit of the sample voxel. *)
Lemma fit_refined_within_bounds_witness :
  exists r,
    fit (E := externals) (sample_model "two_stage") sample_data = Ok r /\
    fit_within_bounds r solver_bounds.
Proof.
  eexists. split; [apply sample_fit_two_stage|].
  apply (@fit_refined_within_bounds externals eq_refl
           (fun f x0 lb ub kw x => @least_squares_no_step_within f x0 lb ub kw x)
           (sample_model "two_stage") sample_data
           (fst solver_bounds) (snd solver_bounds)).
  - discriminate.
  - reflexivity.
  - reflexivity.
  - reflexivity.
  - apply sample_fit_two_stage.
Defined.

(** Counterexample to C3 as stated: the model constructed with
    [bounds=None] clamps to the solver's pair, not to the envelope. *)
Lemma constructed_model_clamps_to_solver_bounds :
  __init__ (E := externals) sample_gtab default_split_b "two_stage" None
    default_tol default_options = Ok (sample_model "two_stage") /\
  bounds_check (sample_model "two_stage") = solver_bounds /\
  bounds_check (sample_model "two_stage") <> fallback_bounds.
Proof.
  split; [reflexivity|]. split; [reflexivity|].
  change (bounds_check (sample_model "two_stage")) with solver_bounds.
  unfold solver_bounds, fallback_bounds. intros H.
  injection H as H1 H2. lra.
Qed.

(** Witness for C3, amended: the two-stage fit of the sample voxel. *)
Lemma fit_clamp_interval_witness :
  fit (E := externals) (sample_model "two_stage") sample_data =
    (x <- clamp (map Finite [1; 1 - exp (- 2) / 1; 0.0005; - 0.01])
            solver_bounds ;;
     params <- _leastsq (E := externals) (sample_model "two_stage")
                 sample_data x ;;
     Ok (IvimFit.__init__ (sample_model "two_stage") (array params))).
Proof.
  refine (proj1 (@fit_clamp_interval externals
                   (sample_model "two_stage") sample_data _
                   (sample_initial_guess "two_stage") _)).
  discriminate.
Defined.

End SampleVoxel.

(** ** Basic indexing *)

Section IndexingFacts.
Import NdArray.

Lemma select_axis_slice_None (d : nat) :
  select_axis slice_None d = Ok (Stride 0 1 d).
Proof.
  unfold select_axis, slice_None, slice_indices. cbn [Z.eqb Z.ltb Z.compare bind].
  destruct (0 <? Z.of_nat d)%Z eqn:Hd.
  - apply Z.ltb_lt in Hd. cbn [bind]. do 2 f_equal.
    rewrite Z.div_1_r. lia.
  - apply Z.ltb_ge in Hd. cbn [bind]. do 2 f_equal. lia.
Qed.

Lemma select_axis_valid (it : index_item) (d : nat) :
  valid_item it d -> exists sel, select_axis it d = Ok sel.
Proof.
  destruct it as [i|start stop step]; simpl.
  - intros [Hlo Hhi].
    apply Z.leb_le in Hlo. apply Z.ltb_lt in Hhi. rewrite Hlo, Hhi.
    now eexists.
  - intros Hstep. unfold slice_indices.
    destruct step as [st|].
    + destruct (st =? 0)%Z eqn:Hz.
      * apply Z.eqb_eq in Hz. now subst st.
      * cbn [bind]. now eexists.
    + cbn [Z.eqb bind]. now eexists.
Qed.

Lemma select_axes_whole (s : list nat) : forall n,
  (n <= length s)%nat ->
  select_axes (repeat slice_None n) s = Ok (map (fun d => Stride 0 1 d) s).
Proof.
  induction s as [|d s IH]; intros [|n] Hn;
    cbn [repeat select_axes map length] in *; try reflexivity; try lia.
  rewrite select_axis_slice_None. cbn [bind].
  rewrite IH by lia. reflexivity.
Qed.

(** Trailing [slice(None)] entries select what leaving them out selects. *)
Lemma select_axes_pad (its : list index_item) : forall (s : list nat) (n : nat),
  (length its + n <= length s)%nat ->
  select_axes (its ++ repeat slice_None n) s = select_axes its s.
Proof.
  induction its as [|it its IH]; intros s n Hn.
  - cbn [app]. rewrite select_axes_whole by (simpl in Hn; lia).
    now destruct s.
  - destruct s as [|d s]; [simpl in Hn; lia|].
    cbn [app select_axes]. rewrite IH by (simpl in Hn; lia). reflexivity.
Qed.

(** An index that stops before the last axis takes that axis whole. *)
Lemma select_axes_last_axis (its : list index_item) :
  forall (s : list nat) (d : nat),
  (length its <= length s)%nat ->
  select_axes its (s ++ [d]) =
  (sels <- select_axes its s ;; Ok (sels ++ [Stride 0 1 d])).
Proof.
  induction its as [|it its IH]; intros s d Hlen.
  - cbn [select_axes bind]. rewrite map_app. reflexivity.
  - destruct s as [|d0 s]; [simpl in Hlen; lia|].
    cbn [app select_axes].
    destruct (select_axis it d0) as [sel|e]; [|reflexivity]. cbn [bind].
    rewrite IH by (simpl in Hlen; lia).
    destruct (select_axes its s) as [sels|e]; reflexivity.
Qed.

Lemma select_axes_valid (its : list index_item) : forall (s : list nat),
  valid_index its s -> exists sels, select_axes its s = Ok sels.
Proof.
  induction its as [|it its IH]; intros s Hv.
  - now eexists.
  - destruct s as [|d s]; [contradiction|]. destruct Hv as [Hit Hv].
    destruct (select_axis_valid _ _ Hit) as [sel Hsel].
    destruct (IH _ Hv) as [sels Hsels].
    cbn [select_axes]. rewrite Hsel, Hsels. now eexists.
Qed.

Lemma valid_index_length (its : list index_item) : forall (s : list nat),
  valid_index its s -> (length its <= length s)%nat.
Proof.
  induction its as [|it its IH]; intros [|d s] Hv; simpl in *;
    try lia; try contradiction.
  destruct Hv as [_ Hv]. specialize (IH _ Hv). lia.
Qed.

Lemma out_shape_app (sels sels' : list selector) :
  out_shape (sels ++ sels') = out_shape sels ++ out_shape sels'.
Proof.
  induction sels as [|[j|st sp n] sels IH]; simpl; now rewrite ?IH.
Qed.

Lemma source_last_axis (sels : list selector) :
  forall (ix : list nat) (d k : nat),
  length ix = length (out_shape sels) ->
  source (sels ++ [Stride 0 1 d]) (ix ++ [k]) = source sels ix ++ [k].
Proof.
  induction sels as [|[j|st sp n] sels IH]; intros ix d k Hlen.
  - destruct ix; [|discriminate]. simpl. f_equal. lia.
  - cbn [app source]. now rewrite IH.
  - destruct ix as [|i ix]; [discriminate|].
    cbn [app source]. rewrite IH by (simpl in Hlen; lia). reflexivity.
Qed.

Lemma in_shape_length (ix s : list nat) :
  in_shape ix s -> length ix = length s.
Proof. apply Forall2_length. Qed.

Lemma select_within_ndim (its : list index_item) (s : list nat) :
  (length its <= length s)%nat -> select its s = select_axes its s.
Proof.
  intros H. unfold select.
  destruct (Nat.ltb_spec (length s) (length its)); [lia|reflexivity].
Qed.

End IndexingFacts.

(** ** The result container *)

Section ContainerFacts.
Import NdArray.
Variable Model : Type.

Lemma out_shape_whole (s : list nat) :
  out_shape (map (fun d => Stride 0 1 d) s) = s.
Proof. induction s as [|d s IH]; simpl; now rewrite ?IH. Qed.

Lemma select_axes_int_shape (i : Z) (s : list nat) (sels : list selector) :
  select_axes [Int i] s = Ok sels -> out_shape sels = tl s.
Proof.
  destruct s as [|d s]; [discriminate|].
  cbn [select_axes select_axis].
  destruct (_ && _); [|discriminate]. cbn [bind].
  intros H. injection H as <-. cbn [out_shape tl]. apply out_shape_whole.
Qed.

(** Indexing the parameter array with the padded index, as [__getitem__]
    builds it. *)
Lemma getitem_padded (a : ndarray) (its : list index_item) (s : list nat)
    (d : nat) (sels : list selector) :
  shape a = s ++ [d] ->
  (length its <= length s)%nat ->
  select_axes its s = Ok sels ->
  getitem a (its ++ repeat slice_None (ndim a - length its))
  = Ok {| shape := out_shape sels ++ [d];
          item := fun ix => item a (source (sels ++ [Stride 0 1 d]) ix) |}.
Proof.
  intros Hshape Hlen Hsel. unfold getitem, ndim. rewrite Hshape.
  assert (HN : length (s ++ [d]) = S (length s))
    by (rewrite length_app; simpl; lia).
  rewrite select_within_ndim
    by (rewrite length_app, repeat_length; lia).
  rewrite select_axes_pad by lia.
  rewrite select_axes_last_axis by exact Hlen.
  rewrite Hsel. cbn [bind].
  rewrite out_shape_app. reflexivity.
Qed.

Lemma getitem_last_snoc (a : ndarray) (s : list nat) (d k : nat) :
  shape a = s ++ [d] -> (k < d)%nat ->
  getitem_last a k
  = Ok {| shape := s; item := fun ix => item a (ix ++ [k]) |}.
Proof.
  intros Hshape Hk. unfold getitem_last. rewrite Hshape, rev_unit.
  apply Nat.ltb_lt in Hk. rewrite Hk. now rewrite removelast_last.
Qed.

(** Reading parameter [k] after indexing is indexing after reading it. *)
Lemma accessor_after_index (a : ndarray) (its : list index_item)
    (s : list nat) (d k : nat) (sels : list selector) :
  shape a = s ++ [d] ->
  (length its <= length s)%nat ->
  select_axes its s = Ok sels ->
  (k < d)%nat ->
  exists of_r of_self indexed,
    getitem_last
      {| shape := out_shape sels ++ [d];
         item := fun ix => item a (source (sels ++ [Stride 0 1 d]) ix) |} k
      = Ok of_r /\
    getitem_last a k = Ok of_self /\
    getitem of_self its = Ok indexed /\
    same_array of_r indexed.
Proof.
  intros Hshape Hlen Hsel Hk.
  eexists _, _, _.
  split; [now apply (@getitem_last_snoc _ (out_shape sels) d k)|].
  split; [now apply (@getitem_last_snoc a s d k)|].
  split.
  { unfold getitem. cbn [shape]. rewrite select_within_ndim by exact Hlen.
    rewrite Hsel. reflexivity. }
  split; [reflexivity|].
  cbn [shape item]. intros ix Hix.
  now rewrite source_last_axis by now apply in_shape_length.
Qed.

Lemma getitem_unfold (self : IvimFit.t Model) (index : IvimFit.index) :
  (length (index_entries index) < ndim (IvimFit.model_params self))%nat ->
  IvimFit.__getitem__ self index =
  (params <- getitem (IvimFit.model_params self)
               (index_entries index ++
                repeat slice_None
                  (ndim (IvimFit.model_params self)
                   - length (index_entries index))) ;;
   Ok (IvimFit.__init__ (IvimFit.model self) params)).
Proof.
  intros Hlen. unfold IvimFit.__getitem__.
  destruct index as [it|its]; cbn [index_entries bind] in *; [reflexivity|].
  destruct (Nat.leb_spec (ndim (IvimFit.model_params self)) (length its));
    [lia|reflexivity].
Qed.


(** C5, the case the guard misses.  A single-voxel result holds a
    one-dimensional parameter array; indexing it with one integer that is
    not wrapped in a tuple raises nothing and returns a result around the
    zero-dimensional item. *)
Theorem getitem_single_index_on_one_voxel
    (model : Model) (S0 f D_star D : R) :
  exists r,
    ndim (array [S0; f; D_star; D]) = 1%nat /\
    IvimFit.__getitem__ (IvimFit.__init__ model (array [S0; f; D_star; D]))
      (IvimFit.Single (Int 0)) = Ok r /\
    shape (IvimFit.model_params r) = [] /\
    item (IvimFit.model_params r) [] = S0.
Proof.
  eexists. split; [reflexivity|]. split; [reflexivity|].
  split; reflexivity.
Qed.

(** The part of C5 the guard covers: a tuple with as many entries as the
    parameter array has axes, or more, is rejected. *)
Lemma getitem_tuple_rejected (self : IvimFit.t Model)
    (its : list index_item) :
  (ndim (IvimFit.model_params self) <= length its)%nat ->
  IvimFit.__getitem__ self (IvimFit.Tuple its)
  = Raise (IndexError "IndexError: invalid index").
Proof.
  intros H. unfold IvimFit.__getitem__.
  apply Nat.leb_le in H. now rewrite H.
Qed.

End ContainerFacts.


(** * Further properties of the signal model *)

Section SignalModelMore.
Open Scope R_scope.

(** X1. With f = 1 the prediction is the mono-exponential decay
    S0 * exp(-b*D_star) at each b-value, whatever D is. *)
Theorem ivim_prediction_f_one (S0 D_star D : R) (gtab : GradientTable) :
  ivim_prediction [S0; 1; D_star; D] gtab
  = Ok (map (fun b => S0 * exp (- b * D_star)) (bvals gtab))
  /\ forall D' : R,
       ivim_prediction [S0; 1; D_star; D'] gtab
       = ivim_prediction [S0; 1; D_star; D] gtab.
Proof.
  assert (H : forall d,
             ivim_prediction [S0; 1; D_star; d] gtab
             = Ok (map (fun b => S0 * exp (- b * D_star)) (bvals gtab))).
  { intros d. rewrite ivim_prediction_unfold. f_equal.
    apply map_ext. intros b. unfold S_at. ring. }
  split; [apply H|]. intros D'. now rewrite !H.
Qed.




(** X4. [ivim_prediction] raises exactly when [params] does not hold four
    values; it never raises on account of the b-values. *)
Theorem ivim_prediction_raises_iff (params : list R) (gtab : GradientTable) :
  raises (ivim_prediction params gtab) <-> length params <> 4%nat.
Proof.
  destruct params as [|a [|b [|c [|d [|e l]]]]]; simpl;
    (split; [intros _; lia | intros _; apply raises_Raise])
    || (split; [intros [e He]; discriminate | intros H; now contradiction H]).
Qed.

(** X5. The D_star-only prediction and residual are the full prediction
    and residual with D_star put back in its place among the parameters. *)
Theorem D_star_functions_agree
    (D_star S0 f D : R) (gtab : GradientTable) (signal : list R) :
  D_star_prediction D_star gtab [S0; f; D]
    = ivim_prediction [S0; f; D_star; D] gtab /\
  D_star_error D_star gtab signal [S0; f; D]
    = _ivim_error [S0; f; D_star; D] gtab signal.
Proof. split; reflexivity. Qed.

Lemma zip_minus_self (l : list R) :
  map (fun p => fst p - snd p) (combine l l) = repeat 0 (length l).
Proof.
  induction l as [|x l IH]; [reflexivity|].
  simpl. rewrite IH. f_equal. ring.
Qed.

(** X6. The residual of the model's own prediction is zero at every
    b-value. *)
Theorem ivim_error_of_prediction (S0 f D_star D : R) (gtab : GradientTable) :
  exists S,
    ivim_prediction [S0; f; D_star; D] gtab = Ok S /\
    _ivim_error [S0; f; D_star; D] gtab S
    = Ok (repeat 0 (length (bvals gtab))).
Proof.
  eexists. split; [apply ivim_prediction_unfold|].
  unfold _ivim_error. rewrite ivim_prediction_unfold. cbn [bind].
  rewrite (broadcast2_aligned Rminus _ _ eq_refl), zip_minus_self.
  now rewrite length_map.
Qed.

(** X7. For four parameters the residual raises exactly when the signal and
    the b-values differ in length and neither has length one; a one-entry
    signal is broadcast against the table, not rejected. *)
Theorem ivim_error_raises_iff
    (S0 f D_star D : R) (gtab : GradientTable) (signal : list R) :
  raises (_ivim_error [S0; f; D_star; D] gtab signal) <->
  length signal <> length (bvals gtab) /\
  length signal <> 1%nat /\ length (bvals gtab) <> 1%nat.
Proof.
  unfold _ivim_error. rewrite ivim_prediction_unfold. cbn [bind].
  unfold Np.broadcast2. rewrite length_map.
  destruct (Nat.eqb_spec (length signal) (length (bvals gtab))) as [He|Hne].
  - split; [intros [e H]; discriminate|intros [H _]; contradiction].
  - destruct signal as [|x [|y signal]];
      destruct (bvals gtab) as [|b [|b' bs]]; cbn [map length] in *;
      try (split; [intros [e H]; discriminate|intros (_ & H1 & H2); lia]);
      try (split; [intros _; repeat split; lia|intros _; apply raises_Raise]).
Qed.

End SignalModelMore.

(** * Further properties of construction and of the solver options *)

Section ConstructionMore.
Context {E : Externals}.
Import IvimModel.

(** X8. Construction succeeds exactly when the table flags a b0 measurement
    and, on a scipy older than 0.17, no bounds were passed; the model then
    keeps the table, the split, the method, the tolerance and the options it
    was given. *)
Theorem init_succeeds_iff
    (gtab' : GradientTable) (split_b' : R) (method' : string)
    (bounds' : option bounds_t) (tol' : R) (options' : dict) :
  ((exists m, __init__ gtab' split_b' method' bounds' tol' options' = Ok m)
   <-> In true (b0s_mask gtab') /\
       (SCIPY_LESS_0_17 = false \/ bounds' = None))
  /\ forall m,
       __init__ gtab' split_b' method' bounds' tol' options' = Ok m ->
       gtab m = gtab' /\ split_b m = split_b' /\ method m = method' /\
       tol m = tol' /\ options m = options'.
Proof.
  split; [|intros m H; apply init_ok_inv in H; subst m; repeat split].
  rewrite <- any_true_iff. unfold __init__.
  destruct (Np.any (b0s_mask gtab')); cbn [negb].
  - cbn [bounds].
    destruct SCIPY_LESS_0_17, bounds' as [b|]; cbn [andb].
    + split; [intros [m H]; discriminate|].
      intros [_ [H|H]]; discriminate.
    + split; [intros _; auto|intros _; now eexists].
    + split; [intros _; auto|intros _; now eexists].
    + split; [intros _; auto|intros _; now eexists].
  - split; [intros [m H]; discriminate|intros [H _]; discriminate].
Qed.

(** X9. Construction raises the "bounds not supported" [ValueError] exactly
    when the table flags a b0 measurement, scipy is older than 0.17 and
    bounds were passed. *)
Theorem init_rejects_bounds_iff
    (gtab' : GradientTable) (split_b' : R) (method' : string)
    (bounds' : option bounds_t) (tol' : R) (options' : dict) :
  __init__ gtab' split_b' method' bounds' tol' options'
    = Raise (ValueError no_bounds_message)
  <-> In true (b0s_mask gtab') /\
      SCIPY_LESS_0_17 = true /\ bounds' <> None.
Proof.
  rewrite <- any_true_iff. unfold __init__.
  destruct (Np.any (b0s_mask gtab')); cbn [negb].
  - cbn [bounds].
    destruct SCIPY_LESS_0_17, bounds' as [b|]; cbn [andb].
    + split; [intros _; repeat split; discriminate|reflexivity].
    + split; [discriminate|intros (_ & _ & H); now contradiction H].
    + split; [discriminate|intros (_ & H & _); discriminate].
    + split; [discriminate|intros (_ & H & _); discriminate].
  - split; [|intros [H _]; discriminate].
    intros H. exfalso. apply messages_differ. congruence.
Qed.

Lemma dict_getitem_ok_in (d : dict) (key : string) (v : R) :
  dict_getitem d key = Ok v -> In key (map fst d).
Proof.
  induction d as [|[k w] d IH]; simpl; [discriminate|].
  destruct (String.eqb_spec k key) as [->|Hne]; [now left|].
  intros H. right. now apply IH.
Qed.

Lemma dict_getitem_missing (d : dict) (key : string) :
  ~ In key (map fst d) -> dict_getitem d key = Raise (KeyError key).
Proof.
  intros Hnot. destruct (dict_getitem d key) as [v|e] eqn:H.
  - now apply dict_getitem_ok_in in H.
  - now apply dict_getitem_raise in H as ->.
Qed.

Lemma dict_getitem_present (d : dict) (key : string) :
  In key (map fst d) -> exists v, dict_getitem d key = Ok v.
Proof.
  induction d as [|[k w] d IH]; simpl; [contradiction|].
  destruct (String.eqb_spec k key) as [->|Hne]; [now eexists|].
  intros [H|H]; [contradiction|now apply IH].
Qed.

(** X10. If one of the keys 'gtol', 'ftol', 'eps', 'maxiter' is missing from
    the options, both [estimate_D_star] and [_leastsq] raise a [KeyError]
    naming a missing key, and no solver is consulted. *)
Theorem missing_option_raises_KeyError
    (m : t) (data other_params : list R) (x0 : list xreal)
    (Hmissing : exists key,
        In key ["gtol"; "ftol"; "eps"; "maxiter"]%string /\
        ~ In key (map fst (options m))) :
  exists key,
    In key ["gtol"; "ftol"; "eps"; "maxiter"]%string /\
    ~ In key (map fst (options m)) /\
    estimate_D_star m data other_params = Raise (KeyError key) /\
    _leastsq m data x0 = Raise (KeyError key).
Proof.
  unfold estimate_D_star, _leastsq.
  destruct (dict_getitem (options m) "gtol") as [gtol|e] eqn:Hg.
  2:{ apply dict_getitem_raise in Hg as Hg'. subst e. exists "gtol"%string.
      split; [simpl; auto|]. split; [|split; reflexivity].
      intros Hin. apply dict_getitem_present in Hin as [v Hv]. congruence. }
  destruct (dict_getitem (options m) "ftol") as [ftol|e] eqn:Hf.
  2:{ apply dict_getitem_raise in Hf as Hf'. subst e. exists "ftol"%string.
      split; [simpl; auto|]. split; [|split; reflexivity].
      intros Hin. apply dict_getitem_present in Hin as [v Hv]. congruence. }
  destruct (dict_getitem (options m) "eps") as [eps|e] eqn:He.
  2:{ apply dict_getitem_raise in He as He'. subst e. exists "eps"%string.
      split; [simpl; auto|]. split; [|split; reflexivity].
      intros Hin. apply dict_getitem_present in Hin as [v Hv]. congruence. }
  destruct (dict_getitem (options m) "maxiter") as [mi|e] eqn:Hm.
  2:{ apply dict_getitem_raise in Hm as Hm'. subst e. exists "maxiter"%string.
      split; [simpl; auto|]. split; [|split; reflexivity].
      intros Hin. apply dict_getitem_present in Hin as [v Hv]. congruence. }
  exfalso. destruct Hmissing as (key & Hkey & Hnot).
  apply dict_getitem_ok_in in Hg, Hf, He, Hm.
  simpl in Hkey. destruct Hkey as [<-|[<-|[<-|[<-|[]]]]]; contradiction.
Qed.

End ConstructionMore.

(** Witness for X10: options without 'eps'. *)
Lemma missing_option_raises_KeyError_witness :
  exists key,
    In key ["gtol"; "ftol"; "eps"; "maxiter"]%string /\
    ~ In key (map fst (IvimModel.options Reference.no_eps_model)) /\
    IvimModel.estimate_D_star (E := Reference.externals)
      Reference.no_eps_model Reference.sample_data [1; 0; 0]%R
      = Raise (KeyError key) /\
    IvimModel._leastsq (E := Reference.externals)
      Reference.no_eps_model Reference.sample_data [Finite 1]
      = Raise (KeyError key).
Proof.
  apply (@missing_option_raises_KeyError Reference.externals).
  exists "eps"%string. split; [simpl; auto|].
  simpl. intros [H|[H|[H|[]]]]; discriminate.
Defined.

(** * Further properties of the staged initial guess and of the clamp *)

Section InitialGuessMore.
Context {E : Externals}.
Import IvimModel NdArray.
Open Scope R_scope.

Lemma estimate_S0_prime_D_positive (m : t) (data : list R) (S0_prime D : R) :
  estimate_S0_prime_D m data = Ok (S0_prime, D) -> 0 < S0_prime.
Proof.
  unfold estimate_S0_prime_D. rewrite mask_select_own. cbn [bind].
  destruct (Np.mask_select (bvecs (gtab m)) _); [|discriminate].
  cbn [bind gradient_table bvals].
  destruct (Np.mask_select data _); [|discriminate]. cbn [bind].
  destruct (polyfit _ _ 1) as [c|]; [|discriminate]. cbn [bind].
  destruct c as [|d [|nl [|]]]; try discriminate.
  intros H. injection H as <- _. apply exp_pos.
Qed.

Lemma estimate_S0_D_star_prime_positive (m : t) (data : list R) (S0 Dsp : R) :
  estimate_S0_D_star_prime m data = Ok (S0, Dsp) -> 0 < S0.
Proof.
  unfold estimate_S0_D_star_prime. rewrite mask_select_own. cbn [bind].
  destruct (Np.mask_select (bvecs (gtab m)) _); [|discriminate].
  cbn [bind gradient_table bvals].
  destruct (Np.mask_select data _); [|discriminate]. cbn [bind].
  destruct (polyfit _ _ 1) as [c|]; [|discriminate]. cbn [bind].
  destruct c as [|d [|nl [|]]]; try discriminate.
  intros H. injection H as <- _. apply exp_pos.
Qed.

(** X11. Whatever the regression and the solver return, an initial guess
    that is produced has S0 > 0 and f < 1: both baselines are exponentials,
    so f = 1 - S0_prime/S0 stays below 1. *)
Theorem initial_guess_S0_positive_f_below_one
    (m : t) (data : list R) (S0 f D_star D : R)
    (Hguess : initial_guess m data = Ok [S0; f; D_star; D]) :
  0 < S0 /\ f < 1.
Proof.
  unfold initial_guess in Hguess.
  destruct (estimate_S0_prime_D m data) as [[S0' D']|] eqn:Hhi;
    [|discriminate].
  destruct (estimate_S0_D_star_prime m data) as [[S0'' Dsp]|] eqn:Hlo;
    [|discriminate].
  cbn [bind] in Hguess.
  destruct (estimate_D_star m data _) as [Ds|]; [|discriminate].
  cbn [bind] in Hguess. injection Hguess as <- <- _ _.
  apply estimate_S0_prime_D_positive in Hhi.
  apply estimate_S0_D_star_prime_positive in Hlo.
  split; [exact Hlo|].
  assert (0 < S0' / S0'') by (apply Rdiv_lt_0_compat; assumption).
  lra.
Qed.

(** X12. With the bounded solver, whose solution lies within the bounds it
    is given, the D_star estimated by the scalar sub-fit lies in
    [0, 0.01]. *)
Theorem estimate_D_star_within
    (Hbounded : SCIPY_LESS_0_17 = false)
    (Hsolver : forall fun_ x0 lb ub kw x,
        length lb = length x0 -> length ub = length x0 ->
        least_squares fun_ x0 (Some (lb, ub)) kw = Ok x ->
        within_bounds x (lb, ub))
    (m : t) (data other_params : list R) (D_star : R)
    (Hest : estimate_D_star m data other_params = Ok D_star) :
  0 <= D_star <= 0.01.
Proof.
  unfold estimate_D_star in Hest. rewrite Hbounded in Hest.
  destruct (dict_getitem (options m) "gtol"); [|discriminate].
  destruct (dict_getitem (options m) "ftol"); [|discriminate].
  destruct (dict_getitem (options m) "eps"); [|discriminate].
  destruct (dict_getitem (options m) "maxiter"); [|discriminate].
  cbn [bind] in Hest.
  destruct (least_squares _ _ _ _) as [res|] eqn:Hls; [|discriminate].
  cbn [bind] in Hest.
  destruct res as [|d [|]]; try discriminate. injection Hest as ->.
  apply Hsolver in Hls; [|reflexivity|reflexivity].
  destruct Hls as (_ & _ & Hin).
  destruct (Hin 0%nat) as [Hlo Hhi]; [simpl; lia|].
  simpl in Hlo, Hhi. lra.
Qed.

Lemma clamp1_feasible (x lo hi : xreal) :
  xle lo x -> xle x hi -> clamp1 x lo hi = x.
Proof.
  unfold clamp1.
  destruct x as [x| |], lo as [lo| |], hi as [hi| |]; simpl;
    try tauto; try reflexivity;
    repeat (unfold Rltb;
            match goal with
            | |- context [Rlt_dec ?a ?b] => destruct (Rlt_dec a b)
            end; simpl);
    intros H1 H2; try reflexivity; try lra; f_equal; lra.
Qed.

(** X13. The clamp leaves alone a vector that already lies within the
    interval, endpoints included. *)
Theorem clamp_keeps_feasible
    (a0 a1 a2 a3 l0 l1 l2 l3 h0 h1 h2 h3 : xreal)
    (H0 : xle l0 a0 /\ xle a0 h0) (H1 : xle l1 a1 /\ xle a1 h1)
    (H2 : xle l2 a2 /\ xle a2 h2) (H3 : xle l3 a3 /\ xle a3 h3) :
  clamp [a0; a1; a2; a3] ([l0; l1; l2; l3], [h0; h1; h2; h3])
  = Ok [a0; a1; a2; a3].
Proof.
  rewrite clamp_four.
  now rewrite !clamp1_feasible by tauto.
Qed.

(** X14. In a fit that goes on to the final solver, the starting point that
    [_leastsq] receives from a constructed model lies within the bounds the
    solver is given: [fit] does not start the solver outside them. *)
Theorem fit_start_is_feasible
    (gtab' : GradientTable) (split_b' : R) (method' : string)
    (bounds' : option bounds_t) (tol' : R) (options' : dict)
    (m : t) (data x0 : list R)
    (Hinit : __init__ gtab' split_b' method' bounds' tol' options' = Ok m)
    (Hguess : initial_guess m data = Ok x0)
    (Hmethod : method m <> "one_stage"%string) :
  exists x,
    fit m data =
      (params <- _leastsq m data x ;; Ok (IvimFit.__init__ m (array params)))
    /\ bounds m = Some solver_bounds
    /\ Forall2 xle (fst solver_bounds) x
    /\ Forall2 xle x (snd solver_bounds).
Proof.
  rewrite (fit_unfold _ _ Hguess).
  apply String.eqb_neq in Hmethod. rewrite Hmethod.
  apply init_ok_inv in Hinit.
  assert (Hb : bounds m = Some solver_bounds) by now subst m.
  unfold bounds_check. rewrite Hb.
  destruct (initial_guess_four _ _ Hguess) as (a0 & a1 & a2 & a3 & ->).
  unfold solver_bounds. cbn [map]. rewrite clamp_four. cbn [bind].
  assert (H0 : xle (Finite 0) PosInf) by exact I.
  assert (H1 : xle (Finite 0) (Finite 1)) by (simpl; lra).
  assert (H2 : xle (Finite 0) (Finite 0.05)) by (simpl; lra).
  assert (H3 : xle (Finite 0) (Finite 0.005)) by (simpl; lra).
  rewrite !clamp1_spec by assumption.
  eexists. split; [reflexivity|]. split; [reflexivity|].
  cbn [fst snd].
  split; repeat constructor; now apply spec_clip_within.
Qed.

Lemma minus_ln_decay (S0 D b : R) :
  0 < S0 -> - ln (S0 * exp (- b * D)) = D * b + - ln S0.
Proof.
  intros H. rewrite ln_mult by (assumption || apply exp_pos).
  rewrite ln_exp. ring.
Qed.



End InitialGuessMore.

(** ** The further properties on the sample voxel *)

Section SampleVoxelMore.
Import Reference IvimModel NdArray.
Open Scope R_scope.

Lemma sample_at_or_above_split (meth : string) :
  at_or_above_split (sample_model meth) = [200; 300].
Proof.
  unfold at_or_above_split, sample_model, default_split_b. simpl.
  Rcompare. reflexivity.
Qed.

Lemma sample_below_split (meth : string) :
  below_split (sample_model meth) = [0; 100].
Proof.
  unfold below_split, sample_model, default_split_b. simpl.
  Rcompare. reflexivity.
Qed.

Lemma flat_data_at_or_above_split (meth : string) :
  data_at_or_above_split (sample_model meth) flat_data = [1; 1].
Proof.
  unfold data_at_or_above_split, sample_model, default_split_b. simpl.
  Rcompare. reflexivity.
Qed.

Lemma flat_data_below_split (meth : string) :
  data_below_split (sample_model meth) flat_data = [1; 1].
Proof.
  unfold data_below_split, sample_model, default_split_b. simpl.
  Rcompare. reflexivity.
Qed.

Lemma flat_decay (b : R) : 1 * exp (- b * 0) = 1.
Proof. replace (- b * 0) with 0 by ring. rewrite exp_0. ring. Qed.

Lemma flat_line (x1 x2 : R) :
  x1 <> x2 ->
  ols_line [x1; x2] (map (fun b => 0 * b + - ln 1) [x1; x2]) 1
  = Ok [0; - ln 1].
Proof.
  intros Hx. cbn [map]. rewrite ols_line_two_points by exact Hx.
  rewrite ln_1. f_equal. f_equal; [|f_equal]; field; lra.
Qed.

(** Witness for X11. *)
Lemma initial_guess_S0_positive_f_below_one_witness :
  0 < 1 /\ 1 - exp (- 2) / 1 < 1.
Proof.
  exact (@initial_guess_S0_positive_f_below_one externals
           (sample_model "one_stage") sample_data _ _ _ _
           (sample_initial_guess "one_stage")).
Defined.

(** Witness for X12. *)
Lemma estimate_D_star_within_witness : 0 <= 0.0005 <= 0.01.
Proof.
  exact (@estimate_D_star_within externals eq_refl
           (fun f x0 lb ub kw x => @least_squares_no_step_within f x0 lb ub kw x)
           (sample_model "two_stage") sample_data [1; 0; 0] 0.0005
           (sample_estimate_D_star "two_stage" [1; 0; 0])).
Defined.

(** Witness for X13: a guess inside the solver's bounds. *)
Lemma clamp_keeps_feasible_witness :
  clamp [Finite 1; Finite 0.5; Finite 0.01; Finite 0.001] solver_bounds
  = Ok [Finite 1; Finite 0.5; Finite 0.01; Finite 0.001].
Proof.
  apply clamp_keeps_feasible; simpl; try split; try exact I; lra.
Defined.

(** Witness for X14: the two-stage fit of the sample voxel. *)
Lemma fit_start_is_feasible_witness :
  exists x,
    fit (E := externals) (sample_model "two_stage") sample_data =
      (params <- _leastsq (E := externals) (sample_model "two_stage")
                   sample_data x ;;
       Ok (IvimFit.__init__ (sample_model "two_stage") (array params)))
    /\ bounds (sample_model "two_stage") = Some solver_bounds
    /\ Forall2 xle (fst solver_bounds) x
    /\ Forall2 xle x (snd solver_bounds).
Proof.
  apply (@fit_start_is_feasible externals sample_gtab default_split_b
           "two_stage" None default_tol default_options
           (sample_model "two_stage") sample_data _ eq_refl
           (sample_initial_guess "two_stage")).
  discriminate.
Defined.



End SampleVoxelMore.

(** * Further properties of the result container *)

Section ContainerMore.
Import NdArray.
Variable Model : Type.

Lemma source_whole (s : list nat) : forall ix,
  length ix = length s ->
  source (map (fun d => Stride 0 1 d) s) ix = ix.
Proof.
  induction s as [|d s IH]; intros [|k ix] Hlen; simpl in *;
    try reflexivity; try discriminate.
  rewrite IH by lia. f_equal. lia.
Qed.

Lemma source_length (sels : list selector) : forall ix,
  length (source sels ix) = length sels.
Proof.
  induction sels as [|[j|st sp n] sels IH]; intros ix; simpl.
  - reflexivity.
  - now rewrite IH.
  - destruct ix; simpl; now rewrite IH.
Qed.

Lemma select_axes_length (its : list index_item) : forall s sels,
  select_axes its s = Ok sels -> length sels = length s.
Proof.
  induction its as [|it its IH]; intros s sels H.
  - cbn in H. injection H as <-. apply length_map.
  - destruct s as [|d s]; [discriminate|]. cbn [select_axes] in H.
    destruct (select_axis it d) as [sel|]; [|discriminate]. cbn [bind] in H.
    destruct (select_axes its s) as [sels'|] eqn:Hs; [|discriminate].
    cbn [bind] in H. injection H as <-. simpl. now rewrite (IH _ _ Hs).
Qed.

(** The errors basic indexing can raise are numpy's own. *)
Lemma select_axis_error (it : index_item) (d : nat) (e : exn) :
  select_axis it d = Raise e ->
  e = IndexError "index is out of bounds for axis" \/
  e = ValueError "slice step cannot be zero".
Proof.
  destruct it as [i|start stop step]; cbn [select_axis].
  - destruct (_ && _); [discriminate|]. intros H. injection H as <-. now left.
  - unfold slice_indices.
    destruct (_ =? 0)%Z; cbn [bind]; [|discriminate].
    intros H. injection H as <-. now right.
Qed.

Lemma select_axes_error (its : list index_item) : forall s e,
  select_axes its s = Raise e ->
  e = IndexError "too many indices for array" \/
  e = IndexError "index is out of bounds for axis" \/
  e = ValueError "slice step cannot be zero".
Proof.
  induction its as [|it its IH]; intros s e H; [discriminate|].
  destruct s as [|d s]; cbn [select_axes] in H.
  - injection H as <-. now left.
  - destruct (select_axis it d) as [sel|e'] eqn:Hsel; cbn [bind] in H.
    + destruct (select_axes its s) as [sels|e'] eqn:Hs; cbn [bind] in H;
        [discriminate|].
      injection H as <-. now apply IH in Hs.
    + injection H as <-. right. now apply select_axis_error in Hsel.
Qed.

Lemma getitem_error (a : ndarray) (index : list index_item) (e : exn) :
  getitem a index = Raise e ->
  e <> IndexError "IndexError: invalid index".
Proof.
  unfold getitem, select.
  destruct (Nat.ltb _ _); cbn [bind].
  - intros H. injection H as <-. discriminate.
  - destruct (select_axes index (shape a)) as [sels|e'] eqn:Hs; cbn [bind];
      [discriminate|].
    intros H. injection H as <-.
    apply select_axes_error in Hs as [ -> | [ -> | -> ] ]; discriminate.
Qed.

(** X17. [__getitem__] raises its own "invalid index" error exactly for a
    tuple with at least as many entries as the parameter array has axes;
    every other failure of indexing is an error raised by numpy. *)
Theorem getitem_invalid_index_iff
    (self : IvimFit.t Model) (its : list index_item) :
  IvimFit.__getitem__ self (IvimFit.Tuple its)
    = Raise (IndexError "IndexError: invalid index")
  <-> (ndim (IvimFit.model_params self) <= length its)%nat.
Proof.
  split.
  - intros H. unfold IvimFit.__getitem__ in H.
    destruct (Nat.leb_spec (ndim (IvimFit.model_params self)) (length its))
      as [Hle|Hlt]; [exact Hle|].
    cbn [bind] in H.
    destruct (getitem _ _) as [p|e] eqn:Hg; cbn [bind] in H; [discriminate|].
    injection H as ->. now apply getitem_error in Hg.
  - intros H. unfold IvimFit.__getitem__.
    apply Nat.leb_le in H. now rewrite H.
Qed.

(** X18. Indexing with the empty tuple, or with a tuple of fewer full
    slices than the parameter array has axes, returns a result for the same
    model holding the same parameters. *)
Theorem getitem_full_slices_same
    (self : IvimFit.t Model) (n : nat)
    (Hn : (n < ndim (IvimFit.model_params self))%nat) :
  exists r,
    IvimFit.__getitem__ self (IvimFit.Tuple (repeat slice_None n)) = Ok r /\
    IvimFit.model r = IvimFit.model self /\
    same_array (IvimFit.model_params r) (IvimFit.model_params self).
Proof.
  rewrite getitem_unfold by (cbn [index_entries]; now rewrite repeat_length).
  cbn [index_entries]. rewrite repeat_length, <- repeat_app.
  replace (n + (ndim (IvimFit.model_params self) - n))%nat
    with (ndim (IvimFit.model_params self)) by lia.
  unfold getitem.
  rewrite select_within_ndim by (rewrite repeat_length; unfold ndim; lia).
  rewrite select_axes_whole by (unfold ndim; lia). cbn [bind].
  eexists. split; [reflexivity|]. split; [reflexivity|].
  cbn [IvimFit.model_params IvimFit.__init__].
  split; cbn [shape item].
  - apply out_shape_whole.
  - intros ix Hix. rewrite out_shape_whole in Hix.
    now rewrite source_whole by now apply in_shape_length.
Qed.

(** X19. Indexing composes: where [fit[i, rest...]] succeeds, so does
    [fit[i][rest...]], for the same model and with the same parameters. *)
Theorem getitem_composes
    (self : IvimFit.t Model) (i : Z) (its : list index_item)
    (r1 : IvimFit.t Model)
    (Hboth : IvimFit.__getitem__ self (IvimFit.Tuple (Int i :: its))
             = Ok r1) :
  exists r' r2,
    IvimFit.__getitem__ self (IvimFit.Single (Int i)) = Ok r' /\
    IvimFit.__getitem__ r' (IvimFit.Tuple its) = Ok r2 /\
    IvimFit.model r2 = IvimFit.model r1 /\
    same_array (IvimFit.model_params r1) (IvimFit.model_params r2).
Proof.
  destruct self as [mdl a]. unfold IvimFit.__getitem__ in *.
  cbn [IvimFit.model_params IvimFit.model] in *.
  destruct (Nat.leb_spec (ndim a) (length (Int i :: its))) as [Hle|Hlt];
    [discriminate|].
  cbn [bind length] in *.
  destruct a as [sh itm]. unfold ndim in *. cbn [shape] in *.
  destruct sh as [|d s]; [simpl in Hlt; lia|]. cbn [length] in *.
  replace (S (length s) - S (length its))%nat
    with (length s - length its)%nat in Hboth by lia.
  replace (S (length s) - 1)%nat with (length s) by lia.
  unfold getitem in *. cbn [shape item app] in *.
  rewrite select_within_ndim in Hboth
    by (cbn [length]; rewrite length_app, repeat_length; lia).
  rewrite select_within_ndim by (cbn [length]; rewrite repeat_length; lia).
  cbn [select_axes] in *.
  destruct (select_axis (Int i) d) as [[j|st sp n]|] eqn:Hsel;
    try discriminate.
  2:{ cbn [select_axis] in Hsel. destruct (_ && _); discriminate. }
  cbn [bind] in *.
  rewrite select_axes_whole by lia. cbn [bind].
  destruct (select_axes (its ++ repeat slice_None (length s - length its)) s)
    as [sels|] eqn:Hsels; [|discriminate].
  cbn [bind] in Hboth. injection Hboth as <-.
  eexists. eexists. split; [reflexivity|].
  cbn [IvimFit.model_params IvimFit.model IvimFit.__init__ shape item
       out_shape].
  rewrite out_shape_whole.
  destruct (Nat.leb_spec (length s) (length its)) as [Hle|_]; [lia|].
  cbn [bind].
  rewrite select_within_ndim by (rewrite length_app, repeat_length; lia).
  rewrite Hsels. cbn [bind].
  split; [reflexivity|]. split; [reflexivity|].
  cbn [IvimFit.model_params IvimFit.__init__]. split; [reflexivity|].
  cbn [shape item source]. intros ix _.
  rewrite source_whole; [reflexivity|].
  rewrite source_length. now apply select_axes_length in Hsels.
Qed.

Lemma getitem_last_raises_iff (a : ndarray) (k : nat) :
  raises (getitem_last a k) <-> (last (shape a) 0 <= k)%nat.
Proof.
  unfold getitem_last.
  destruct (shape a) as [|d s] using rev_ind.
  - cbn. split; [lia|intros _; apply raises_Raise].
  - rewrite rev_unit, last_last.
    destruct (Nat.ltb_spec k d) as [Hlt|Hge].
    + split; [intros [e He]; discriminate|lia].
    + split; [intros _; exact Hge|intros _; apply raises_Raise].
Qed.

(** X20. An accessor raises exactly when the last axis of the parameter
    array is too short to hold its parameter (or there is no axis at all):
    S0 needs length 1, f 2, D_star 3 and D 4. *)
Theorem accessors_raise_iff (r : IvimFit.t Model) :
  let n := last (shape (IvimFit.model_params r)) 0%nat in
  (raises (IvimFit.S0_predicted r) <-> (n <= 0)%nat) /\
  (raises (IvimFit.perfusion_fraction r) <-> (n <= 1)%nat) /\
  (raises (IvimFit.D_star r) <-> (n <= 2)%nat) /\
  (raises (IvimFit.D r) <-> (n <= 3)%nat).
Proof.
  cbv zeta. repeat split; apply getitem_last_raises_iff.
Qed.

(** X21. A single integer outside [-X, X) as the index of a result whose
    parameter array has first axis X raises numpy's out-of-bounds
    [IndexError]. *)
Theorem getitem_out_of_bounds
    (self : IvimFit.t Model) (i : Z) (X : nat) (rest : list nat)
    (Hshape : shape (IvimFit.model_params self) = X :: rest)
    (Hout : (i < - Z.of_nat X \/ Z.of_nat X <= i)%Z) :
  IvimFit.__getitem__ self (IvimFit.Single (Int i))
  = Raise (IndexError "index is out of bounds for axis").
Proof.
  unfold IvimFit.__getitem__, getitem, ndim. rewrite Hshape.
  cbn [bind length app].
  rewrite select_within_ndim by (cbn [length]; rewrite repeat_length; lia).
  cbn [select_axes select_axis].
  destruct (Z.leb_spec (- Z.of_nat X) i); destruct (Z.ltb_spec i (Z.of_nat X));
    cbn [andb bind]; try reflexivity; lia.
Qed.

(** X22. On a single-voxel result (a one-dimensional parameter array) a
    single integer within range is accepted, and the result it returns holds
    a zero-dimensional item on which every accessor raises. *)
Theorem getitem_single_voxel_result_unusable
    (self : IvimFit.t Model) (i : Z) (n : nat)
    (Hshape : shape (IvimFit.model_params self) = [n])
    (Hin : (- Z.of_nat n <= i < Z.of_nat n)%Z) :
  exists r,
    IvimFit.__getitem__ self (IvimFit.Single (Int i)) = Ok r /\
    shape (IvimFit.model_params r) = [] /\
    raises (IvimFit.S0_predicted r) /\
    raises (IvimFit.perfusion_fraction r) /\
    raises (IvimFit.D_star r) /\
    raises (IvimFit.D r).
Proof.
  unfold IvimFit.__getitem__, getitem, ndim. rewrite Hshape.
  cbn [bind length app repeat Nat.sub select Nat.ltb Nat.leb
       select_axes select_axis].
  destruct Hin as [Hlo Hhi].
  apply Z.leb_le in Hlo. apply Z.ltb_lt in Hhi. rewrite Hlo, Hhi.
  cbn [andb bind map]. eexists. split; [reflexivity|].
  split; [reflexivity|].
  repeat split; apply raises_Raise.
Qed.

End ContainerMore.

Section OneStageResult.
Context {E : Externals}.
Import IvimModel NdArray.

(** X23. The result of a one-stage fit belongs to the fitting model, spans
    no voxel grid, and its accessors S0, f, D_star and D return, as
    zero-dimensional items, the four estimates in the order [fit] packed
    them. *)
Theorem one_stage_result_accessors
    (m : t) (data : list R) (a0 a1 a2 a3 : R)
    (Hguess : initial_guess m data = Ok [a0; a1; a2; a3])
    (Hmethod : method m = "one_stage"%string) :
  exists r z0 z1 z2 z3,
    fit m data = Ok r /\
    IvimFit.model r = m /\
    IvimFit.shape r = [] /\
    IvimFit.S0_predicted r = Ok z0 /\
    IvimFit.perfusion_fraction r = Ok z1 /\
    IvimFit.D_star r = Ok z2 /\
    IvimFit.D r = Ok z3 /\
    (shape z0 = [] /\ item z0 [] = a0) /\
    (shape z1 = [] /\ item z1 [] = a1) /\
    (shape z2 = [] /\ item z2 [] = a2) /\
    (shape z3 = [] /\ item z3 [] = a3).
Proof.
  rewrite (fit_unfold _ _ Hguess), Hmethod, String.eqb_refl.
  eexists _, _, _, _, _.
  split; [reflexivity|]. split; [reflexivity|]. split; [reflexivity|].
  split; [reflexivity|]. split; [reflexivity|]. split; [reflexivity|].
  split; [reflexivity|].
  repeat split.
Qed.

End OneStageResult.

(** ** The further properties on sample results *)

Section SampleResultsMore.
Import Reference NdArray.

(** Witness for X18: two full slices over the 2 x 3 x 5 grid. *)
Lemma getitem_full_slices_same_witness :
  exists r,
    IvimFit.__getitem__ grid_fit (IvimFit.Tuple (repeat slice_None 2)) = Ok r /\
    IvimFit.model r = IvimFit.model grid_fit /\
    same_array (IvimFit.model_params r) (IvimFit.model_params grid_fit).
Proof.
  apply (@getitem_full_slices_same IvimModel.t grid_fit 2).
  unfold ndim. cbn. lia.
Defined.

Lemma grid_fit_pair :
  exists r1,
    IvimFit.__getitem__ grid_fit (IvimFit.Tuple [Int 1; Int 2]) = Ok r1.
Proof. eexists. reflexivity. Qed.

(** Witness for X19: [grid_fit[1, 2]] and [grid_fit[1][2]]. *)
Lemma getitem_composes_witness :
  exists r1 r' r2,
    IvimFit.__getitem__ grid_fit (IvimFit.Tuple [Int 1; Int 2]) = Ok r1 /\
    IvimFit.__getitem__ grid_fit (IvimFit.Single (Int 1)) = Ok r' /\
    IvimFit.__getitem__ r' (IvimFit.Tuple [Int 2]) = Ok r2 /\
    IvimFit.model r2 = IvimFit.model r1 /\
    same_array (IvimFit.model_params r1) (IvimFit.model_params r2).
Proof.
  destruct grid_fit_pair as [r1 H1].
  destruct (@getitem_composes IvimModel.t grid_fit 1%Z [Int 2] r1 H1)
    as (r' & r2 & H).
  exists r1, r', r2. split; [exact H1|exact H].
Defined.

(** Witness for X21: index 2 on a first axis of length 2. *)
Lemma getitem_out_of_bounds_witness :
  IvimFit.__getitem__ grid_fit (IvimFit.Single (Int 2))
  = Raise (IndexError "index is out of bounds for axis").
Proof.
  apply (@getitem_out_of_bounds IvimModel.t grid_fit 2%Z 2%nat [3; 5; 4]%nat).
  - reflexivity.
  - right. cbn. lia.
Defined.

(** Witness for X22: the last entry of a single-voxel result. *)
Lemma getitem_single_voxel_result_unusable_witness :
  exists r,
    IvimFit.__getitem__
      (IvimFit.__init__ (sample_model "one_stage") (array flat_data))
      (IvimFit.Single (Int (-1))) = Ok r /\
    shape (IvimFit.model_params r) = [] /\
    raises (IvimFit.S0_predicted r) /\
    raises (IvimFit.perfusion_fraction r) /\
    raises (IvimFit.D_star r) /\
    raises (IvimFit.D r).
Proof.
  apply (@getitem_single_voxel_result_unusable IvimModel.t
           (IvimFit.__init__ (sample_model "one_stage") (array flat_data))
           (-1)%Z 4%nat).
  - reflexivity.
  - cbn. lia.
Defined.

(** Witness for X23: the one-stage fit of the sample voxel. *)
Lemma one_stage_result_accessors_witness :
  exists r z0 z1 z2 z3,
    IvimModel.fit (E := externals) (sample_model "one_stage") sample_data
      = Ok r /\
    IvimFit.model r = sample_model "one_stage" /\
    IvimFit.shape r = [] /\
    IvimFit.S0_predicted r = Ok z0 /\
    IvimFit.perfusion_fraction r = Ok z1 /\
    IvimFit.D_star r = Ok z2 /\
    IvimFit.D r = Ok z3 /\
    (shape z0 = [] /\ item z0 [] = 1%R) /\
    (shape z1 = [] /\ item z1 [] = (1 - exp (- 2) / 1)%R) /\
    (shape z2 = [] /\ item z2 [] = 0.0005%R) /\
    (shape z3 = [] /\ item z3 [] = (- 0.01)%R).
Proof.
  exact (@one_stage_result_accessors externals (sample_model "one_stage")
           sample_data _ _ _ _ (sample_initial_guess "one_stage") eq_refl).
Defined.

End SampleResultsMore.

(** * Further properties: the method string and the range of the signal *)

Section MethodAndRange.
Context {E : Externals}.
Import IvimModel NdArray.
Open Scope R_scope.

Lemma initial_guess_with_method (m : t) (meth : string) (data : list R) :
  initial_guess (with_method m meth) data = initial_guess m data.
Proof. reflexivity. Qed.

Lemma leastsq_with_method (m : t) (meth : string) (data : list R)
    (x0 : list xreal) :
  _leastsq (with_method m meth) data x0 = _leastsq m data x0.
Proof. reflexivity. Qed.

(** X24. The method string is not validated: every string other than
    'one_stage' selects the refinement, so such a model fits exactly as the
    'two_stage' model does, returning the same parameters or raising the
    same error. *)
Theorem fit_any_other_method_refines
    (m : t) (data : list R)
    (Hmethod : method m <> "one_stage"%string) :
  match fit m data, fit (with_method m "two_stage") data with
  | Ok r, Ok r' => IvimFit.model_params r = IvimFit.model_params r'
  | Raise e, Raise e' => e = e'
  | _, _ => False
  end.
Proof.
  unfold fit. rewrite initial_guess_with_method.
  apply String.eqb_neq in Hmethod. rewrite Hmethod.
  cbn [method with_method String.eqb Ascii.eqb Bool.eqb].
  destruct (initial_guess m data) as [x0|e]; cbn [bind]; [|reflexivity].
  change (bounds_check (with_method m "two_stage")) with (bounds_check m).
  destruct (clamp (map Finite x0) (bounds_check m)) as [x|e]; cbn [bind];
    [|reflexivity].
  rewrite leastsq_with_method.
  destruct (_leastsq m data x) as [params|e]; cbn [bind]; reflexivity.
Qed.

Lemma exp_decay_range (b D : R) : 0 <= b -> 0 <= D -> 0 < exp (- b * D) <= 1.
Proof.
  intros Hb HD. split; [apply exp_pos|].
  assert (H : - b * D <= 0) by nra.
  destruct H as [H|H].
  - left. rewrite <- exp_0. now apply exp_increasing.
  - rewrite H, exp_0. lra.
Qed.

(** X25. For parameters within their physical range (S0 >= 0, f in [0, 1],
    D_star >= 0, D >= 0) and non-negative b-values, every predicted signal
    value lies between 0 and S0. *)
Theorem ivim_prediction_within_S0
    (S0 f D_star D : R) (gtab : GradientTable)
    (HS0 : 0 <= S0) (Hf : 0 <= f <= 1)
    (HDs : 0 <= D_star) (HD : 0 <= D)
    (Hb : Forall (fun b => 0 <= b) (bvals gtab)) :
  exists S,
    ivim_prediction [S0; f; D_star; D] gtab = Ok S /\
    Forall (fun s => 0 <= s <= S0) S.
Proof.
  eexists. split; [apply ivim_prediction_unfold|].
  rewrite Forall_map. eapply Forall_impl; [|exact Hb].
  intros b Hb0. cbv beta in Hb0. unfold S_at.
  pose proof (exp_decay_range Hb0 HDs) as [H1 H2].
  pose proof (exp_decay_range Hb0 HD) as [H3 H4].
  assert (Hmix : 0 <= f * exp (- b * D_star) + (1 - f) * exp (- b * D) <= 1)
    by (split; nra).
  split; nra.
Qed.

End MethodAndRange.

Section MethodAndRangeSamples.
Import Reference IvimModel.
Open Scope R_scope.

(** Witness for X24: a misspelt method. *)
Lemma fit_any_other_method_refines_witness :
  match fit (E := externals) (sample_model "two stage") sample_data,
        fit (E := externals)
          (with_method (sample_model "two stage") "two_stage") sample_data
  with
  | Ok r, Ok r' => IvimFit.model_params r = IvimFit.model_params r'
  | Raise e, Raise e' => e = e'
  | _, _ => False
  end.
Proof.
  apply (@fit_any_other_method_refines externals (sample_model "two stage")
           sample_data).
  discriminate.
Defined.

(** Witness for X25: physical parameters on the sample table. *)
Lemma ivim_prediction_within_S0_witness :
  exists S,
    ivim_prediction [10; 0.1; 0.01; 0.001] sample_gtab = Ok S /\
    Forall (fun s => 0 <= s <= 10) S.
Proof.
  apply ivim_prediction_within_S0; try lra.
  repeat constructor; lra.
Defined.

End MethodAndRangeSamples.

(** * A voxel with a single measurement on one side of the split *)

Section UnderdeterminedVoxel.
Import Reference IvimModel NdArray.
Open Scope R_scope.

Lemma Reqb_true (x y : R) : x = y -> Reqb x y = true.
Proof.
  intros H. unfold Reqb. destruct (Req_dec_T x y); [reflexivity|contradiction].
Qed.

(** One point does not determine a line: the regression takes the
    minimum-norm one. *)
Lemma ols_line_one_point (x y : R) :
  x <> 0 -> ols_line [x] [y] 1 = Ok [y / (2 * x); y / 2].
Proof.
  intros Hx. unfold ols_line. cbn -[min_norm_line].
  rewrite Reqb_true by ring.
  unfold min_norm_line. rewrite Reqb_false by exact Hx. cbn.
  f_equal. f_equal; [|f_equal]; field. exact Hx.
Qed.

(** Three measurements of an undecayed signal. *)
Lemma ols_line_flat_low_b :
  ols_line [0; 50; 100] [- 0; - 0; - 0] 1 = Ok [0; 0].
Proof.
  unfold ols_line. cbn -[min_norm_line].
  rewrite Reqb_false by lra.
  f_equal. f_equal; [|f_equal]; field; lra.
Qed.

Lemma lopsided_at_or_above_split (meth : string) :
  at_or_above_split (lopsided_model meth) = [300].
Proof.
  unfold at_or_above_split, lopsided_model, default_split_b. simpl.
  Rcompare. reflexivity.
Qed.

Lemma lopsided_estimate_S0_prime_D (meth : string) :
  estimate_S0_prime_D (E := externals) (lopsided_model meth) sample_data
  = Ok (exp (1 / 2), - (1 / 600)).
Proof.
  unfold estimate_S0_prime_D, lopsided_model, sample_data, default_split_b.
  simpl. Rcompare. simpl.
  rewrite ln_exp, ols_line_one_point by lra. simpl.
  f_equal. f_equal; [f_equal|]; lra.
Qed.

Lemma lopsided_estimate_S0_D_star_prime (meth : string) :
  estimate_S0_D_star_prime (E := externals) (lopsided_model meth) sample_data
  = Ok (1, 0).
Proof.
  unfold estimate_S0_D_star_prime, lopsided_model, sample_data,
    default_split_b.
  simpl. Rcompare. simpl.
  rewrite ln_1, ols_line_flat_low_b. simpl.
  f_equal. f_equal. rewrite <- exp_0. f_equal. lra.
Qed.

Lemma lopsided_estimate_D_star (meth : string) (other_params : list R) :
  estimate_D_star (E := externals) (lopsided_model meth) sample_data
    other_params
  = Ok 0.0005.
Proof.
  unfold estimate_D_star, lopsided_model. simpl.
  unfold least_squares_no_step. simpl.
  Rcompare. reflexivity.
Qed.

Lemma lopsided_initial_guess (meth : string) :
  initial_guess (E := externals) (lopsided_model meth) sample_data
  = Ok [1; 1 - exp (1 / 2) / 1; 0.0005; - (1 / 600)].
Proof.
  unfold initial_guess.
  rewrite lopsided_estimate_S0_prime_D, lopsided_estimate_S0_D_star_prime.
  simpl. rewrite lopsided_estimate_D_star. reflexivity.
Qed.

Lemma exp_half_above_1 : 1 < exp (1 / 2).
Proof.
  assert (H : exp 0 < exp (1 / 2)) by (apply exp_increasing; lra).
  now rewrite exp_0 in H.
Qed.

Lemma lopsided_clamp :
  clamp (map Finite [1; 1 - exp (1 / 2) / 1; 0.0005; - (1 / 600)])
    solver_bounds
  = Ok [Finite 1; Finite 0; Finite 0.0005; Finite 0].
Proof.
  pose proof exp_half_above_1 as He.
  unfold clamp, solver_bounds, Np.where_. simpl.
  Rcompare. simpl. Rcompare. reflexivity.
Qed.

Lemma lopsided_leastsq (meth : string) :
  _leastsq (E := externals) (lopsided_model meth) sample_data
    [Finite 1; Finite 0; Finite 0.0005; Finite 0]
  = Ok [1; 0; 0.0005; 0].
Proof.
  unfold _leastsq, lopsided_model. simpl.
  unfold least_squares_no_step, solver_bounds. simpl.
  Rcompare. reflexivity.
Qed.


End UnderdeterminedVoxel.
